(** * sentry_sdk.integrations.stdlib: a shallow embedding

    The module wraps [HTTPConnection.putrequest] / [getresponse] and
    [subprocess.Popen.__init__], and registers a global event processor that
    adds a ["runtime"] context.  Each Python function of the module is
    embedded below as a Rocq function over an explicit world: a heap of
    mapping objects (so that aliasing of [dict]s is visible) and a log of the
    calls made on the collaborators the module does not define (the real
    httplib primitives, the hub, the recorder returned by
    [record_http_request], the real [Popen.__init__]).  The behaviour of
    those collaborators is an input of every embedded function. *)

From Stdlib Require Import ZArith String Ascii DecimalString.
From stdpp Require Import base list strings.

Open Scope string_scope.
Open Scope list_scope.
Set Warnings "-register-all".

(** ** Python string primitives *)

Module PyStr.

Definition is_lower (c : ascii) : bool :=
  let n := nat_of_ascii c in (97 <=? n)%nat && (n <=? 122)%nat.


Definition upper_ascii (c : ascii) : ascii :=
  if is_lower c then ascii_of_nat (nat_of_ascii c - 32) else c.


Fixpoint map_chars (f : ascii -> ascii) (s : string) : string :=
  match s with
  | EmptyString => EmptyString
  | String c s' => String (f c) (map_chars f s')
  end.

(** [s.upper()] and [s.lower()] on ASCII text (header names are ASCII
    tokens); characters outside [a-z] / [A-Z] are left alone. *)
Definition upper (s : string) : string := map_chars upper_ascii s.

(** [s.replace(a, b)] for one-character [a] and [b]. *)
Definition replace (a b : ascii) (s : string) : string :=
  map_chars (fun c => if Ascii.eqb c a then b else c) s.

(** [s.startswith(p)] and its tuple form [s.startswith((p1, p2, ...))]. *)
Definition startswith (s p : string) : bool := String.prefix p s.
Definition startswith_any (s : string) (ps : list string) : bool :=
  existsb (startswith s) ps.


(** ["%s" % z] for an [int] [z]. *)
Definition str_of_int (z : Z) : string := NilEmpty.string_of_int (Z.to_int z).

(** Truth value of a [str]. *)
Definition truthy (s : string) : bool := negb (String.eqb s "").

(** [c and a or b] where [c] is a [bool] and [a], [b] are strings: the
    idiom the module uses instead of a conditional expression. *)
Definition and_or (c : bool) (a b : string) : string :=
  if c then (if truthy a then a else b) else b.

(** [sep.join(l)] *)
Fixpoint join (sep : string) (l : list string) : string :=
  match l with
  | [] => ""
  | [s] => s
  | s :: l' => s +:+ sep +:+ join sep l'
  end.

End PyStr.

(** ** Values, exceptions, mappings and the heap *)

(** Locations are indices into the heap. *)
Abbreviation loc := nat (only parsing).

Inductive value :=
| VNone
| VInt (z : Z)
| VStr (s : string)
| VList (vs : list value)
| VTuple (vs : list value)
| VRef (l : loc)      (* a [dict] object, by identity *)
| VObj (n : nat).     (* any other object, by identity *)

(** The part of the exception hierarchy the module's handlers tell apart:
    [except TypeError], [except Exception], and what neither catches
    ([KeyboardInterrupt], [SystemExit], [GeneratorExit]). *)
Inductive exn_class := TypeError | OtherException | BaseOnly.

Record exn := Exn { exn_class_of : exn_class; exn_id : nat }.

Definition is_TypeError (e : exn) : bool :=
  match exn_class_of e with TypeError => true | _ => false end.

Definition is_Exception (e : exn) : bool :=
  match exn_class_of e with TypeError | OtherException => true | BaseOnly => false end.

Inductive res (A : Type) :=
| Ok (a : A)
| Raise (e : exn).
Arguments Ok {A} a.
Arguments Raise {A} e.

(** A [dict] with string keys: insertion-ordered, one entry per key. *)
Definition pydict := list (string * value).

Fixpoint dict_get (k : string) (d : pydict) : option value :=
  match d with
  | [] => None
  | (k', v) :: d' => if String.eqb k' k then Some v else dict_get k d'
  end.

Definition dict_mem (k : string) (d : pydict) : bool :=
  match dict_get k d with Some _ => true | None => false end.

(** [d[k] = v]: an existing key keeps its place, a new one goes last. *)
Fixpoint dict_set (k : string) (v : value) (d : pydict) : pydict :=
  match d with
  | [] => [(k, v)]
  | (k', v') :: d' =>
      if String.eqb k' k then (k, v) :: d' else (k', v') :: dict_set k v d'
  end.

(** The heap: mapping objects by location; objects are never freed. *)
Abbreviation heap := (list pydict) (only parsing).

Definition alloc (d : pydict) (h : heap) : loc * heap := (length h, h ++ [d]).

(** [obj[k] = v] on the mapping at [l]. *)
Definition heap_setitem (l : loc) (k : string) (v : value) (h : heap) : heap :=
  alter (dict_set k v) l h.

Definition is_none (v : value) : bool :=
  match v with VNone => true | _ => false end.

(** Truth value of an object ([bool(v)]). *)
Definition truthy (h : heap) (v : value) : bool :=
  match v with
  | VNone => false
  | VInt z => negb (z =? 0)%Z
  | VStr s => PyStr.truthy s
  | VList vs | VTuple vs => match vs with [] => false | _ => true end
  | VRef l => match h !! l with Some [] => false | _ => true end
  | VObj _ => true
  end.

(** ** The observable calls *)

Inductive event :=
| EvRecordHttpRequest (r : nat) (url method : string)
    (* [record_http_request(hub, url, method)] returned recorder [r] *)
| EvEnter (r : nat) (d : loc)
    (* [recorder.__enter__()] returned the mapping at [d] *)
| EvExit (r : nat) (exc : option exn)
    (* [recorder.__exit__(...)], with the exception info or three [None]s *)
| EvRealPutrequest (method url : string) (args : list value) (kwargs : pydict)
| EvPutheader (key val : string)
| EvRealGetresponse (args : list value) (kwargs : pydict)
| EvSpanEnter (op description : string)
    (* [hub.span(op=..., description=...).__enter__()] *)
| EvSetData (key : string) (v : value)
| EvSpanExit (exc : option exn)
| EvOldPopenInit (a : list value) (kw : pydict).

Record world := World { w_heap : heap; w_log : list event }.

Definition emit (e : event) (w : world) : world :=
  World (w_heap w) (w_log w ++ [e]).

Definition with_heap (h : heap) (w : world) : world := World h (w_log w).

(** ** httplib: [putrequest] and [getresponse] *)

(** The attributes of an [HTTPConnection] the wrappers read or write.  The
    two [_sentrysdk_*] attributes are [None] when absent, as
    [getattr(self, ..., None)] reads them. *)
Record conn := Conn {
  host : string;
  port : Z;
  default_port : Z;
  _sentrysdk_recorder : option nat;
  _sentrysdk_data_dict : option loc
}.

Record response := Response { resp_obj : nat; status : Z; reason : string }.

(** Lines 59-66: the URL handed to [record_http_request]. *)
Definition real_url (host : string) (port default_port : Z) (url : string) : string :=
  if PyStr.startswith_any url ["http://"; "https://"] then url
  else
    PyStr.and_or (default_port =? 443)%Z "https" "http"
    +:+ "://" +:+ host
    +:+ PyStr.and_or (negb (port =? default_port)%Z) (":" +:+ PyStr.str_of_int port) ""
    +:+ url.

(** What the collaborators do during one [putrequest] call. *)
Record putrequest_oracle := {
  po_active : bool;
    (* [hub.get_integration(StdlibIntegration) is not None] *)
  po_data : pydict;
    (* initial contents of the mapping [recorder.__enter__()] returns *)
  po_real : res value;
    (* outcome of [real_putrequest(self, method, url, *args, **kwargs)] *)
  po_headers : list (string * string);
    (* pairs yielded by [hub.iter_trace_propagation_headers()] *)
  po_headers_end : option exn;
    (* the exception ending that iteration, if it does not end normally *)
  po_putheader : string -> string -> option exn
    (* the exception [self.putheader(key, value)] raises, if any *)
}.

(** [for key, value in ...: self.putheader(key, value)] *)
Fixpoint put_headers (putheader : string -> string -> option exn)
    (hs : list (string * string)) (w : world) : option exn * world :=
  match hs with
  | [] => (None, w)
  | (key, val) :: hs' =>
      let w1 := emit (EvPutheader key val) w in
      match putheader key val with
      | Some e => (Some e, w1)
      | None => put_headers putheader hs' w1
      end
  end.

(** The body of the [try] block of [putrequest]. *)
Definition putrequest_try (o : putrequest_oracle) (w : world) : res value * world :=
  match po_real o with
  | Raise e => (Raise e, w)
  | Ok rv =>
      match put_headers (po_putheader o) (po_headers o) w with
      | (Some e, w') => (Raise e, w')
      | (None, w') =>
          match po_headers_end o with
          | Some e => (Raise e, w')
          | None => (Ok rv, w')
          end
      end
  end.

(** A new recorder is named by the length of the log: every creation is
    logged, so no two recorders share a name. *)
Definition putrequest (o : putrequest_oracle) (self : conn) (method url : string)
    (args : list value) (kwargs : pydict) (w : world) : res value * conn * world :=
  if negb (po_active o) then
    (po_real o, self, emit (EvRealPutrequest method url args kwargs) w)
  else
    let real_url := real_url (host self) (port self) (default_port self) url in
    let recorder := length (w_log w) in
    let w1 := emit (EvRecordHttpRequest recorder real_url method) w in
    let '(data_dict, h2) := alloc (po_data o) (w_heap w1) in
    let w2 := emit (EvEnter recorder data_dict) (with_heap h2 w1) in
    match putrequest_try o (emit (EvRealPutrequest method url args kwargs) w2) with
    | (Raise e, w3) =>
        if is_Exception e                                  (* except Exception: *)
        then (Raise e, self, emit (EvExit recorder (Some e)) w3)
        else (Raise e, self, w3)
    | (Ok rv, w3) =>
        (Ok rv,
         Conn (host self) (port self) (default_port self)
              (Some recorder) (Some data_dict),
         w3)
    end.

(** [data_dict["httplib_response"] = rv] and the two lines after it. *)
Definition record_response (data_dict : option loc) (rv : response) (h : heap) : heap :=
  match data_dict with
  | None => h
  | Some d =>
      heap_setitem d "reason" (VStr (reason rv))
        (heap_setitem d "status_code" (VInt (status rv))
           (heap_setitem d "httplib_response" (VObj (resp_obj rv)) h))
  end.

Definition getresponse (real : res response) (self : conn)
    (args : list value) (kwargs : pydict) (w : world) : res response * conn * world :=
  match _sentrysdk_recorder self with
  | None => (real, self, emit (EvRealGetresponse args kwargs) w)
  | Some recorder =>
      let data_dict := _sentrysdk_data_dict self in
      let w1 := emit (EvRealGetresponse args kwargs) w in
      match real with
      | Ok rv =>
          let w2 := with_heap (record_response data_dict rv (w_heap w1)) w1 in
          (Ok rv, self, emit (EvExit recorder None) w2)    (* else: *)
      | Raise e =>
          if is_TypeError e then (Raise e, self, w1)       (* except TypeError: raise *)
          else if is_Exception e                           (* except Exception: *)
          then (Raise e, self, emit (EvExit recorder (Some e)) w1)
          else (Raise e, self, w1)
      end
  end.

(** A sequence of [getresponse] calls on one handle, one outcome of the real
    primitive per call. *)
Fixpoint getresponse_seq (reals : list (res response)) (self : conn) (w : world)
    : conn * world :=
  match reals with
  | [] => (self, w)
  | real :: reals' =>
      let '(_, self', w') := getresponse real self [] [] w in
      getresponse_seq reals' self' w'
  end.

(** How often [recorder.__exit__] was called on recorder [r]. *)
Definition is_exit_of (r : nat) (e : event) : bool :=
  match e with EvExit r' _ => (r' =? r)%nat | _ => false end.

Definition exit_count (r : nat) (log : list event) : nat :=
  length (List.filter (is_exit_of r) log).

(** ** [_init_argument] *)

(** A [setdefault_callback]: it may allocate and it may raise. *)
Definition callback := value -> heap -> res value * heap.

(** [args] is the (mutable) list of positional arguments, [kwargs] the
    keyword dictionary; both are returned as the call leaves them.
    [position] is one of the canonical positions 0, 9 and 10. *)
Definition _init_argument (args : list value) (kwargs : pydict) (name : string)
    (position : nat) (setdefault_callback : option callback) (h : heap)
    : res value * list value * pydict * heap :=
  match dict_get name kwargs with
  | Some rv0 =>                                            (* name in kwargs *)
      match setdefault_callback with
      | None =>
          (Ok rv0, args, if is_none rv0 then kwargs else dict_set name rv0 kwargs, h)
      | Some f =>
          match f rv0 h with
          | (Raise e, h') => (Raise e, args, kwargs, h')
          | (Ok rv, h') =>
              (Ok rv, args, if is_none rv then kwargs else dict_set name rv kwargs, h')
          end
      end
  | None =>
      match args !! position with
      | Some rv0 =>                                        (* position < len(args) *)
          match setdefault_callback with
          | None =>
              (Ok rv0, if is_none rv0 then args else <[position := rv0]> args, kwargs, h)
          | Some f =>
              match f rv0 h with
              | (Raise e, h') => (Raise e, args, kwargs, h')
              | (Ok rv, h') =>
                  (Ok rv, if is_none rv then args else <[position := rv]> args, kwargs, h')
              end
          end
      | None =>
          match setdefault_callback with
          | None => (Ok VNone, args, kwargs, h)
          | Some f =>
              match f VNone h with
              | (Raise e, h') => (Raise e, args, kwargs, h')
              | (Ok rv, h') =>
                  (Ok rv, args, if is_none rv then kwargs else dict_set name rv kwargs, h')
              end
          end
      end
  end.

(** ** subprocess: [sentry_patched_popen_init] *)

(** Line 182: the name of the variable that carries header [k]. *)
Definition env_key (k : string) : string :=
  "SUBPROCESS_" +:+ PyStr.replace "-" "_" (PyStr.upper k).

Record popen_oracle := {
  so_active : bool;
    (* [hub.get_integration(StdlibIntegration) is not None] *)
  so_environ : loc;
    (* the mapping behind [os.environ] *)
  so_headers : list (string * string);
    (* pairs yielded by [hub.iter_trace_propagation_headers()] *)
  so_headers_end : option exn;
  so_dict_error : value -> exn;
    (* what [dict(x)] raises when [x] is not a mapping *)
  so_str : value -> option string;
    (* [str(x)]; [None] when it raises *)
  so_safe_repr : value -> string;
  so_old_init : res value
    (* outcome of [old_popen_init(self, *a, **kw)] *)
}.

(** [lambda x: dict(x or os.environ)].  [env] is a mapping or [None] by
    [Popen]'s contract; for anything else [dict] fails. *)
Definition env_default (o : popen_oracle) : callback := fun x h =>
  let src := if truthy h x then x else VRef (so_environ o) in
  match src with
  | VRef l =>
      match h !! l with
      | Some d => let '(l', h') := alloc d h in (Ok (VRef l'), h')
      | None => (Raise (so_dict_error o src), h)
      end
  | _ => (Raise (so_dict_error o src), h)
  end.

(** Lines 179-182.  [env] is the local variable, [VNone] at first. *)
Fixpoint inject_headers (o : popen_oracle) (hs : list (string * string))
    (env : value) (a : list value) (kw : pydict) (h : heap)
    : option exn * value * list value * pydict * heap :=
  match hs with
  | [] => (None, env, a, kw, h)
  | (k, v) :: hs' =>
      let '(r, a1, kw1, h1) :=
        if is_none env
        then _init_argument a kw "env" 10 (Some (env_default o)) h
        else (Ok env, a, kw, h) in
      match r with
      | Raise e => (Some e, env, a1, kw1, h1)
      | Ok (VRef l) =>
          inject_headers o hs' (VRef l) a1 kw1 (heap_setitem l (env_key k) (VStr v) h1)
      | Ok env1 => (Some (Exn TypeError 0), env1, a1, kw1, h1)
          (* item assignment on something that is not a mapping *)
      end
  end.

(** Lines 168-175. *)
Definition describe (o : popen_oracle) (args : value) : string :=
  let description :=
    match args with
    | VList vs | VTuple vs =>
        if (length vs <? 100)%nat
        then PyStr.join " " <$> mapM (so_str o) vs
        else None
    | _ => None
    end in
  match description with
  | Some s => s
  | None => so_safe_repr o args
  end.

Definition sentry_patched_popen_init (o : popen_oracle) (a : list value) (kw : pydict)
    (w : world) : res value * world :=
  if negb (so_active o) then (so_old_init o, emit (EvOldPopenInit a kw) w)
  else
    match _init_argument a kw "args" 0 None (w_heap w) with
    | (Raise e, _, _, h1) => (Raise e, with_heap h1 w)
    | (Ok rv, a1, kw1, h1) =>
        let args := if truthy h1 rv then rv else VList [] in
        match _init_argument a1 kw1 "cwd" 9 None h1 with
        | (Raise e, _, _, h2) => (Raise e, with_heap h2 w)
        | (Ok cwd, a2, kw2, h2) =>
            let description := describe o args in
            match inject_headers o (so_headers o) VNone a2 kw2 h2 with
            | (Some e, _, _, _, h3) => (Raise e, with_heap h3 w)
            | (None, _, a3, kw3, h3) =>
                match so_headers_end o with
                | Some e => (Raise e, with_heap h3 w)
                | None =>
                    let w1 := emit (EvSpanEnter "subprocess" description) (with_heap h3 w) in
                    let w2 := emit (EvSetData "subprocess.cwd" cwd) w1 in
                    let w3 := emit (EvOldPopenInit a3 kw3) w2 in
                    match so_old_init o with
                    | Ok r => (Ok r, emit (EvSpanExit None) w3)
                    | Raise e => (Raise e, emit (EvSpanExit (Some e)) w3)
                    end
                end
            end
        end
    end.

(** ** The environment codec *)

(** The writes of lines 179-182 on the mapping itself. *)
Fixpoint set_environment_pairs (hs : list (string * string)) (env : pydict) : pydict :=
  match hs with
  | [] => env
  | (k, v) :: hs' => set_environment_pairs hs' (dict_set (env_key k) (VStr v) env)
  end.





(** ** The runtime context *)

(** Lines 19-23; the three strings are fixed when the module is loaded. *)
Definition _RUNTIME_CONTEXT (implementation version build : string) : pydict :=
  [("name", VStr implementation); ("version", VStr version); ("build", VStr build)].

(** [add_python_runtime_context(event, hint)].  [runtime] is the location of
    the [_RUNTIME_CONTEXT] object, [event] that of the event; the fresh [{}]
    is built before [setdefault] is called, as Python evaluates arguments. *)
Definition add_python_runtime_context (active : bool) (runtime event : loc) (h : heap)
    : value * heap :=
  if active then
    match h !! event with
    | None => (VRef event, h)
    | Some ev =>
        let '(fresh, h1) := alloc [] h in
        let '(contexts, h2) :=
          match dict_get "contexts" ev with
          | Some c => (c, h1)
          | None => (VRef fresh, heap_setitem event "contexts" (VRef fresh) h1)
          end in
        match contexts with
        | VRef l =>
            match h2 !! l with
            | Some d =>
                if dict_mem "runtime" d then (VRef event, h2)
                else (VRef event, heap_setitem l "runtime" (VRef runtime) h2)
            | None => (VRef event, h2)
            end
        | _ => (VRef event, h2)
        end
    end
  else (VRef event, h).

(** ** Vocabulary of the statements *)

(** The value an argument has in a call: by keyword, else at its position. *)
Definition current_argument (args : list value) (kwargs : pydict) (name : string)
    (position : nat) : option value :=
  match dict_get name kwargs with
  | Some v => Some v
  | None => args !! position
  end.

(** [kwargs'] is [kwargs] with [name] bound to [rv] and nothing else touched. *)
Definition kw_written (name : string) (rv : value) (kwargs kwargs' : pydict) : Prop :=
  dict_get name kwargs' = Some rv
  /\ forall k, k <> name -> dict_get k kwargs' = dict_get k kwargs.

(** [args'] is [args] with slot [position] holding [rv] and nothing else
    touched. *)
Definition pos_written (position : nat) (rv : value) (args args' : list value) : Prop :=
  args' !! position = Some rv
  /\ length args' = length args
  /\ forall i, i <> position -> args' !! i = args !! i.

(** The first exception a [putheader] call raises over the headers [hs], and
    the [putheader] calls made up to and including that one. *)
Fixpoint putheader_failure (putheader : string -> string -> option exn)
    (hs : list (string * string)) : option exn :=
  match hs with
  | [] => None
  | (k, v) :: hs' =>
      match putheader k v with
      | Some e => Some e
      | None => putheader_failure putheader hs'
      end
  end.

Fixpoint headers_attempted (putheader : string -> string -> option exn)
    (hs : list (string * string)) : list (string * string) :=
  match hs with
  | [] => []
  | (k, v) :: hs' =>
      (k, v) :: match putheader k v with
                | Some _ => []
                | None => headers_attempted putheader hs'
                end
  end.

Definition putheader_events (hs : list (string * string)) : list event :=
  map (fun kv => EvPutheader (fst kv) (snd kv)) hs.

(** What the unwrapped call or the header injection raises in one
    [putrequest] call, if either raises. *)
Definition request_failure (o : putrequest_oracle) : option exn :=
  match po_real o with
  | Raise e => Some e
  | Ok _ =>
      match putheader_failure (po_putheader o) (po_headers o) with
      | Some e => Some e
      | None => po_headers_end o
      end
  end.

(** The [putheader] calls of one [putrequest] call. *)
Definition request_headers (o : putrequest_oracle) : list (string * string) :=
  match po_real o with
  | Raise _ => []
  | Ok _ => headers_attempted (po_putheader o) (po_headers o)
  end.

(** The outcomes of the real [getresponse] after which the wrapper calls
    [recorder.__exit__]. *)
Definition closes_span (real : res response) : bool :=
  match real with
  | Ok _ => true
  | Raise e => negb (is_TypeError e) && is_Exception e
  end.

(** The mapping [lambda x: dict(x or os.environ)] copies for the [env]
    argument [x] of the call, when there is one. *)
Definition env_base (o : popen_oracle) (h : heap) (x : value) : option pydict :=
  match (if truthy h x then x else VRef (so_environ o)) with
  | VRef l => h !! l
  | _ => None
  end.

(** The exception a [with] block hands to [__exit__]. *)
Definition exc_info {A : Type} (r : res A) : option exn :=
  match r with Ok _ => None | Raise e => Some e end.

(** The description and the working directory of a [Popen] call. *)
Definition popen_description (o : popen_oracle) (a : list value) (kw : pydict)
    (h : heap) : string :=
  let rv := default VNone (current_argument a kw "args" 0) in
  describe o (if truthy h rv then rv else VList []).

Definition popen_cwd (a : list value) (kw : pydict) : value :=
  default VNone (current_argument a kw "cwd" 9).





(** Which calls of the log reach the real primitives. *)
Definition is_real_putrequest (e : event) : bool :=
  match e with EvRealPutrequest _ _ _ _ => true | _ => false end.

Definition is_real_getresponse (e : event) : bool :=
  match e with EvRealGetresponse _ _ => true | _ => false end.



(** * Properties *)

(** ** URL reconstruction *)

Lemma and_or_nonempty (c : bool) (a b : string) :
  PyStr.truthy a = true -> PyStr.and_or c a b = if c then a else b.
Proof. intros Ha. unfold PyStr.and_or. rewrite Ha. reflexivity. Qed.

Lemma real_url_relative (host url : string) (port default_port : Z) :
  PyStr.startswith_any url ["http://"; "https://"] = false ->
  real_url host port default_port url =
    (if (default_port =? 443)%Z then "https" else "http") +:+ "://" +:+ host
    +:+ (if (port =? default_port)%Z then "" else ":" +:+ PyStr.str_of_int port)
    +:+ url.
Proof.
  intros Hrel. unfold real_url. rewrite Hrel.
  rewrite !and_or_nonempty by reflexivity.
  destruct (port =? default_port)%Z; reflexivity.
Qed.

Lemma startswith_empty (s : string) : PyStr.startswith s "" = true.
Proof. destruct s; reflexivity. Qed.

Lemma length_append (s t : string) :
  String.length (s +:+ t) = String.length s + String.length t.
Proof. induction s as [|c s IH]; simpl; [reflexivity | now rewrite IH]. Qed.

Lemma append_cons_neq (c : ascii) (s t : string) : String c s +:+ t <> t.
Proof.
  intros H. apply (f_equal String.length) in H.
  simpl in H. rewrite length_append in H. lia.
Qed.

(** C2: for a relative [url] the URL given to the span leaves the [":port"]
    segment out exactly when [port] is the connection's default port, and its
    scheme is ["https"] exactly when the default port is 443 (["http"]
    otherwise); host and the caller's path follow in that order. *)
Theorem putrequest_url_port_and_scheme (host url : string) (port default_port : Z) :
  PyStr.startswith_any url ["http://"; "https://"] = false ->
  let scheme := if (default_port =? 443)%Z then "https" else "http" in
  let u := real_url host port default_port url in
  (u = scheme +:+ "://" +:+ host +:+ url <-> port = default_port)
  /\ (u = scheme +:+ "://" +:+ host +:+ ":" +:+ PyStr.str_of_int port +:+ url
      <-> port <> default_port)
  /\ (PyStr.startswith u "https://" = true <-> default_port = 443%Z)
  /\ (PyStr.startswith u "http://" = true <-> default_port <> 443%Z).
Proof.
  intros Hrel scheme u. subst u. rewrite (real_url_relative _ _ _ _ Hrel). fold scheme.
  assert (Hport : forall rest,
             scheme +:+ "://" +:+ host +:+ ":" +:+ rest +:+ url
             <> scheme +:+ "://" +:+ host +:+ url).
  { intros rest H. do 3 apply String.app_inj in H.
    exact (append_cons_neq ":" rest url H). }
  repeat split.
  - destruct (Z.eqb_spec port default_port) as [|Hne]; [done|].
    intros H. exfalso. exact (Hport _ H).
  - intros ->. rewrite Z.eqb_refl. reflexivity.
  - destruct (Z.eqb_spec port default_port) as [->|Hne]; [|done].
    intros H. exfalso. exact (Hport _ (eq_sym H)).
  - intros Hne. apply Z.eqb_neq in Hne. rewrite Hne. reflexivity.
  - subst scheme. destruct (Z.eqb_spec default_port 443); [done|].
    simpl. discriminate.
  - intros ->. subst scheme. simpl. apply startswith_empty.
  - subst scheme. destruct (Z.eqb_spec default_port 443) as [->|]; [|done].
    simpl. discriminate.
  - intros Hne. subst scheme. apply Z.eqb_neq in Hne. rewrite Hne.
    simpl. apply startswith_empty.
Qed.

Lemma putrequest_url_port_and_scheme_example :
  real_url "example.com" 80 80 "/path" = "http://example.com/path"
  /\ real_url "example.com" 8443 443 "/path" = "https://example.com:8443/path"
  /\ (PyStr.startswith (real_url "example.com" 8443 443 "/path") "https://" = true
      <-> 443%Z = 443%Z).
Proof.
  split; [reflexivity|]. split; [reflexivity|].
  exact (proj1 (proj2 (proj2
    (putrequest_url_port_and_scheme "example.com" "/path" 8443 443 eq_refl)))).
Defined.

(** C10: a [url] that already starts with ["http://"] or ["https://"] is the
    span's URL as it is, whatever host, port and default port the connection
    has. *)
Theorem putrequest_url_absolute (host url : string) (port default_port : Z) :
  PyStr.startswith url "http://" = true \/ PyStr.startswith url "https://" = true ->
  real_url host port default_port url = url.
Proof.
  intros H. unfold real_url, PyStr.startswith_any. simpl.
  destruct H as [-> | ->]; simpl; rewrite ?orb_true_r; reflexivity.
Qed.

Lemma putrequest_url_absolute_example :
  real_url "proxy.local" 3128 80 "https://example.com/x" = "https://example.com/x".
Proof.
  apply (putrequest_url_absolute "proxy.local" "https://example.com/x" 3128 80).
  right. reflexivity.
Defined.

(** ** Mappings *)

Lemma dict_get_set_eq (k : string) (v : value) (d : pydict) :
  dict_get k (dict_set k v d) = Some v.
Proof.
  induction d as [|[k' v'] d IH]; simpl.
  - now rewrite String.eqb_refl.
  - destruct (String.eqb k' k) eqn:E; simpl.
    + now rewrite String.eqb_refl.
    + now rewrite E.
Qed.

Lemma dict_get_set_ne (k k' : string) (v : value) (d : pydict) :
  k' <> k -> dict_get k' (dict_set k v d) = dict_get k' d.
Proof.
  intros Hne. induction d as [|[k0 v0] d IH]; simpl.
  - apply String.eqb_neq in Hne. rewrite String.eqb_sym in Hne. now rewrite Hne.
  - destruct (String.eqb k0 k) eqn:E; simpl.
    + apply String.eqb_eq in E. subst k0.
      assert (String.eqb k k' = false) as -> by (apply String.eqb_neq; congruence).
      reflexivity.
    + now rewrite IH.
Qed.

Lemma dict_set_same (k : string) (v : value) (d : pydict) :
  dict_get k d = Some v -> dict_set k v d = d.
Proof.
  induction d as [|[k' v'] d IH]; simpl; [discriminate|].
  destruct (String.eqb k' k) eqn:E.
  - apply String.eqb_eq in E. now intros [= ->]; subst.
  - intros H. now rewrite IH.
Qed.

Lemma dict_set_absent (k : string) (v : value) (d : pydict) :
  dict_get k d = None -> dict_set k v d = d ++ [(k, v)].
Proof.
  induction d as [|[k' v'] d IH]; simpl; [reflexivity|].
  destruct (String.eqb k' k); [discriminate|].
  intros H. now rewrite IH.
Qed.

Lemma kw_written_set (name : string) (rv : value) (kwargs : pydict) :
  kw_written name rv kwargs (dict_set name rv kwargs).
Proof.
  split; [apply dict_get_set_eq|].
  intros k Hk. now apply dict_get_set_ne.
Qed.

Lemma pos_written_insert (position : nat) (rv cur : value) (args : list value) :
  args !! position = Some cur -> pos_written position rv args (<[position := rv]> args).
Proof.
  intros Hcur. repeat split.
  - apply list_lookup_insert_eq. eapply lookup_lt_Some, Hcur.
  - apply length_insert.
  - intros i Hi. now apply list_lookup_insert_ne.
Qed.

(** ** The argument extractor *)

Lemma init_argument_read (args : list value) (kwargs : pydict) (name : string)
    (position : nat) (h : heap) :
  _init_argument args kwargs name position None h
  = (Ok (default VNone (current_argument args kwargs name position)), args, kwargs, h).
Proof.
  unfold _init_argument, current_argument.
  destruct (dict_get name kwargs) as [rv0|] eqn:Hkw; simpl.
  - destruct (is_none rv0); [reflexivity|]. now rewrite dict_set_same.
  - destruct (args !! position) as [rv0|] eqn:Hpos; simpl; [|reflexivity].
    destruct (is_none rv0); [reflexivity|]. now rewrite list_insert_id.
Qed.

Lemma init_argument_default (args : list value) (kwargs : pydict) (name : string)
    (position : nat) (h : heap) (f : callback) (rv : value) (h1 : heap) :
  f (default VNone (current_argument args kwargs name position)) h = (Ok rv, h1) ->
  exists args' kwargs',
    _init_argument args kwargs name position (Some f) h = (Ok rv, args', kwargs', h1)
    /\ (is_none rv = true -> args' = args /\ kwargs' = kwargs)
    /\ (is_none rv = false ->
         match dict_get name kwargs, args !! position with
         | Some _, _ => args' = args /\ kw_written name rv kwargs kwargs'
         | None, Some _ => pos_written position rv args args' /\ kwargs' = kwargs
         | None, None => args' = args /\ kwargs' = kwargs ++ [(name, rv)]
         end).
Proof.
  unfold _init_argument, current_argument.
  destruct (dict_get name kwargs) as [rv0|] eqn:Hkw; simpl.
  - intros ->. eexists _, _. split; [reflexivity|].
    split; intros ->; [done|]. split; [done|]. apply kw_written_set.
  - destruct (args !! position) as [rv0|] eqn:Hpos; simpl.
    + intros ->. eexists _, _. split; [reflexivity|].
      split; intros ->; [done|]. split; [|done]. eapply pos_written_insert, Hpos.
    + intros ->. eexists _, _. split; [reflexivity|].
      split; intros ->; [done|]. split; [done|]. now apply dict_set_absent.
Qed.

Lemma init_argument_default_raises (args : list value) (kwargs : pydict)
    (name : string) (position : nat) (h : heap) (f : callback) (e : exn) (h1 : heap) :
  f (default VNone (current_argument args kwargs name position)) h = (Raise e, h1) ->
  _init_argument args kwargs name position (Some f) h = (Raise e, args, kwargs, h1).
Proof.
  unfold _init_argument, current_argument.
  destruct (dict_get name kwargs) as [rv0|]; simpl; [now intros ->|].
  destruct (args !! position) as [rv0|]; simpl; now intros ->.
Qed.

(** C8: the three call shapes of [_init_argument].  Without a default
    function the call returns the argument's current value ([None] when it was
    not supplied) and leaves [args] and [kwargs] as they were.  With a default
    function [f], the result is [f] applied to the current value ([None] when
    not supplied); a result other than [None] is written back where the
    argument was found (the keyword entry, or the positional slot), or
    appended as a new keyword when the argument was not supplied; a [None]
    result writes nothing.  An exception of [f] leaves both untouched. *)
Theorem init_argument_call_shapes (args : list value) (kwargs : pydict)
    (name : string) (position : nat) (h : heap) :
  let current := default VNone (current_argument args kwargs name position) in
  _init_argument args kwargs name position None h = (Ok current, args, kwargs, h)
  /\ (forall (f : callback) rv h1,
        f current h = (Ok rv, h1) ->
        exists args' kwargs',
          _init_argument args kwargs name position (Some f) h = (Ok rv, args', kwargs', h1)
          /\ (is_none rv = true -> args' = args /\ kwargs' = kwargs)
          /\ (is_none rv = false ->
               match dict_get name kwargs, args !! position with
               | Some _, _ => args' = args /\ kw_written name rv kwargs kwargs'
               | None, Some _ => pos_written position rv args args' /\ kwargs' = kwargs
               | None, None => args' = args /\ kwargs' = kwargs ++ [(name, rv)]
               end))
  /\ (forall (f : callback) e h1,
        f current h = (Raise e, h1) ->
        _init_argument args kwargs name position (Some f) h = (Raise e, args, kwargs, h1)).
Proof.
  intros current. split; [apply init_argument_read|]. split.
  - intros f rv h1. apply init_argument_default.
  - intros f e h1. apply init_argument_default_raises.
Qed.

Lemma init_argument_call_shapes_example :
  _init_argument [VStr "ls"] [("cwd", VStr "/tmp")] "cwd" 9 None []
  = (Ok (VStr "/tmp"), [VStr "ls"], [("cwd", VStr "/tmp")], [])
  /\ _init_argument [VStr "ls"] [] "cwd" 9 None [] = (Ok VNone, [VStr "ls"], [], [])
  /\ _init_argument [VStr "ls"] [] "cwd" 9 (Some (fun _ h => (Ok (VStr "/"), h))) []
     = (Ok (VStr "/"), [VStr "ls"], [("cwd", VStr "/")], [])
  /\ _init_argument [VStr "ls"] [] "cwd" 0 (Some (fun _ h => (Ok (VStr "pwd"), h))) []
     = (Ok (VStr "pwd"), [VStr "pwd"], [], []).
Proof.
  split; [|repeat split].
  exact (proj1 (init_argument_call_shapes
                  [VStr "ls"] [("cwd", VStr "/tmp")] "cwd" 9 [])).
Defined.

(** ** The request phase *)

Lemma put_headers_trace (putheader : string -> string -> option exn)
    (hs : list (string * string)) (w : world) :
  put_headers putheader hs w
  = (putheader_failure putheader hs,
     World (w_heap w)
           (w_log w ++ putheader_events (headers_attempted putheader hs))).
Proof.
  revert w. induction hs as [|[k v] hs IH]; intros w; simpl.
  - rewrite app_nil_r. now destruct w.
  - destruct (putheader k v) as [e|]; simpl.
    + reflexivity.
    + rewrite IH. simpl. now rewrite <- app_assoc.
Qed.

Lemma putrequest_try_trace (o : putrequest_oracle) (w : world) :
  exists r,
    putrequest_try o w
    = (r, World (w_heap w) (w_log w ++ putheader_events (request_headers o)))
    /\ match request_failure o with
       | Some e => r = Raise e
       | None => exists rv, po_real o = Ok rv /\ r = Ok rv
       end.
Proof.
  unfold putrequest_try, request_failure, request_headers.
  destruct (po_real o) as [rv|e].
  - rewrite put_headers_trace.
    destruct (putheader_failure _ _) as [e|]; [eauto|].
    destruct (po_headers_end o) as [e|]; eauto.
  - eexists. split; [|reflexivity]. simpl. rewrite app_nil_r. now destruct w.
Qed.

(** The whole of an instrumented [putrequest] call: the recorder is created
    and entered, then the real primitive is called, then the headers are put;
    the handle gets its two attributes only on success. *)
Lemma putrequest_active_trace (o : putrequest_oracle) (self : conn)
    (method url : string) (args : list value) (kwargs : pydict) (w : world) :
  po_active o = true ->
  let r := length (w_log w) in
  let d := length (w_heap w) in
  let calls :=
    [EvRecordHttpRequest r (real_url (host self) (port self) (default_port self) url) method;
     EvEnter r d;
     EvRealPutrequest method url args kwargs]
    ++ putheader_events (request_headers o) in
  putrequest o self method url args kwargs w
  = match request_failure o with
    | Some e =>
        (Raise e, self,
         World (w_heap w ++ [po_data o])
               (w_log w ++ calls ++ if is_Exception e then [EvExit r (Some e)] else []))
    | None =>
        (po_real o,
         Conn (host self) (port self) (default_port self) (Some r) (Some d),
         World (w_heap w ++ [po_data o]) (w_log w ++ calls))
    end.
Proof.
  intros Hact r d calls. unfold putrequest. rewrite Hact. simpl.
  match goal with |- context [putrequest_try o ?w0] =>
    destruct (putrequest_try_trace o w0) as (res0 & -> & Hres) end.
  subst calls r d. unfold emit, with_heap. simpl.
  destruct (request_failure o) as [e|].
  - subst res0. destruct (is_Exception e); simpl;
      repeat (rewrite <- ?app_assoc; simpl); rewrite ?app_nil_r; reflexivity.
  - destruct Hres as (rv & -> & ->).
    repeat (rewrite <- ?app_assoc; simpl). reflexivity.
Qed.

(** C3, as the code has it: in an instrumented [putrequest] the recorder is
    created and entered before the real primitive is called.  When the real
    primitive, a [putheader] call or the header iteration raises [e], the
    call raises that same [e] and leaves the handle's attributes as they were;
    [recorder.__exit__] is called with [e], once, when [e] is an [Exception],
    and not at all otherwise.  On a handle that carried no recorder before,
    the next [getresponse] only forwards to the real primitive. *)
Theorem putrequest_failure (o : putrequest_oracle) (self : conn)
    (method url : string) (args : list value) (kwargs : pydict) (w : world) (e : exn) :
  po_active o = true ->
  request_failure o = Some e ->
  let r := length (w_log w) in
  exists w',
    putrequest o self method url args kwargs w = (Raise e, self, w')
    /\ w_log w'
       = w_log w
         ++ [EvRecordHttpRequest r
               (real_url (host self) (port self) (default_port self) url) method;
             EvEnter r (length (w_heap w));
             EvRealPutrequest method url args kwargs]
         ++ putheader_events (request_headers o)
         ++ (if is_Exception e then [EvExit r (Some e)] else [])
    /\ (_sentrysdk_recorder self = None ->
        forall real a k,
          getresponse real self a k w' = (real, self, emit (EvRealGetresponse a k) w')).
Proof.
  intros Hact Hfail r.
  pose proof (putrequest_active_trace o self method url args kwargs w Hact) as H.
  simpl in H. rewrite Hfail in H.
  eexists. split; [exact H|]. split.
  - reflexivity.
  - intros Hnone real a k. unfold getresponse. now rewrite Hnone.
Qed.

Lemma putrequest_failure_example :
  let o := {| po_active := true; po_data := []; po_real := Ok VNone;
              po_headers := [("sentry-trace", "abc")]; po_headers_end := None;
              po_putheader := fun _ _ => Some (Exn OtherException 3) |} in
  exists w',
    putrequest o (Conn "example.com" 80 80 None None) "GET" "/path" [] [] (World [] [])
    = (Raise (Exn OtherException 3), Conn "example.com" 80 80 None None, w')
    /\ w_log w'
       = [EvRecordHttpRequest 0 "http://example.com/path" "GET"; EvEnter 0 0;
          EvRealPutrequest "GET" "/path" [] []; EvPutheader "sentry-trace" "abc";
          EvExit 0 (Some (Exn OtherException 3))].
Proof.
  intros o.
  destruct (putrequest_failure o (Conn "example.com" 80 80 None None)
              "GET" "/path" [] [] (World [] []) (Exn OtherException 3)
              eq_refl eq_refl) as (w' & Hrun & Hlog & _).
  exists w'. split; [exact Hrun | exact Hlog].
Defined.

(** The claim without the restriction to [Exception]s, and without the
    restriction to a handle that carried no recorder, fails: a
    [KeyboardInterrupt] out of the real primitive leaves the recorder
    un-exited, and a handle that still holds the recorder of an earlier
    request hands it to the next [getresponse]. *)
Lemma putrequest_failure_as_stated_fails :
  ~ (forall o self method url args kwargs w e,
       po_active o = true ->
       request_failure o = Some e ->
       In (EvExit (length (w_log w)) (Some e))
          (w_log (snd (putrequest o self method url args kwargs w))))
  /\ ~ (forall o self method url args kwargs w e real,
          po_active o = true ->
          request_failure o = Some e ->
          let '(_, self', w') := putrequest o self method url args kwargs w in
          getresponse real self' [] [] w'
          = (real, self', emit (EvRealGetresponse [] []) w')).
Proof.
  pose (quiet := fun (_ _ : string) => @None exn).
  split.
  - intros H.
    specialize (H {| po_active := true; po_data := [];
                     po_real := Raise (Exn BaseOnly 1);
                     po_headers := []; po_headers_end := None;
                     po_putheader := quiet |}
                  (Conn "example.com" 80 80 None None) "GET" "/" [] [] (World [] [])
                  (Exn BaseOnly 1) eq_refl eq_refl).
    vm_compute in H. intuition discriminate.
  - intros H.
    (* a first request and its response, on a fresh handle *)
    pose (first := putrequest {| po_active := true; po_data := [];
                                 po_real := Ok VNone;
                                 po_headers := []; po_headers_end := None;
                                 po_putheader := quiet |}
                     (Conn "example.com" 80 80 None None) "GET" "/" [] []
                     (World [] [])).
    pose (answered := getresponse (Ok (Response 5 200 "OK"))
                        (snd (fst first)) [] [] (snd first)).
    (* a second request on the same handle fails *)
    specialize (H {| po_active := true; po_data := [];
                     po_real := Raise (Exn OtherException 1);
                     po_headers := []; po_headers_end := None;
                     po_putheader := quiet |}
                  (snd (fst answered)) "GET" "/" [] [] (snd answered)
                  (Exn OtherException 1) (Ok (Response 6 200 "OK")) eq_refl eq_refl).
    vm_compute in H. discriminate H.
Qed.

(** A successful instrumented [putrequest] attaches the new recorder and the
    mapping its [__enter__] returned; that mapping is on the heap. *)
Lemma putrequest_success_attaches (o : putrequest_oracle) (self : conn)
    (method url : string) (args : list value) (kwargs : pydict) (w : world) :
  po_active o = true ->
  request_failure o = None ->
  exists rv self' w',
    putrequest o self method url args kwargs w = (Ok rv, self', w')
    /\ po_real o = Ok rv
    /\ _sentrysdk_recorder self' = Some (length (w_log w))
    /\ _sentrysdk_data_dict self' = Some (length (w_heap w))
    /\ w_heap w' !! length (w_heap w) = Some (po_data o)
    /\ exit_count (length (w_log w)) (w_log w') = exit_count (length (w_log w)) (w_log w).
Proof.
  intros Hact Hok.
  pose proof (putrequest_active_trace o self method url args kwargs w Hact) as H.
  simpl in H. rewrite Hok in H.
  assert (exists rv, po_real o = Ok rv) as [rv Hrv].
  { unfold request_failure in Hok. destruct (po_real o); [eauto | discriminate]. }
  rewrite Hrv in H. eexists _, _, _. split; [exact H|]. simpl.
  repeat split; try reflexivity.
  - exact Hrv.
  - now rewrite lookup_app_r, Nat.sub_diag.
  - unfold exit_count. rewrite List.filter_app, length_app. simpl.
    assert (forall hs, List.filter (is_exit_of (length (w_log w))) (putheader_events hs) = [])
      as -> by (induction hs; simpl; auto).
    simpl. lia.
Qed.

(** ** The response phase *)

Lemma heap_setitem_lookup (l : loc) (k : string) (v : value) (h : heap) (l' : loc) :
  heap_setitem l k v h !! l'
  = if decide (l = l') then dict_set k v <$> h !! l else h !! l'.
Proof. unfold heap_setitem. apply list_lookup_alter. Qed.

Lemma record_response_lookup (d : loc) (rv : response) (h : heap) (dd : pydict) :
  h !! d = Some dd ->
  record_response (Some d) rv h !! d
  = Some (dict_set "reason" (VStr (reason rv))
            (dict_set "status_code" (VInt (status rv))
               (dict_set "httplib_response" (VObj (resp_obj rv)) dd)))
  /\ forall l, l <> d -> record_response (Some d) rv h !! l = h !! l.
Proof.
  intros Hd. unfold record_response. split.
  - rewrite !heap_setitem_lookup. rewrite !decide_True by reflexivity.
    now rewrite Hd.
  - intros l Hl. rewrite !heap_setitem_lookup. now rewrite !decide_False by congruence.
Qed.

(** C6: when the real [getresponse] returns on a handle that carries a
    recorder and its mapping, the response object, its status and its reason
    are stored in that mapping under ["httplib_response"], ["status_code"] and
    ["reason"], every other entry and every other object is left alone, the
    recorder is exited with three [None]s, and the response is returned to the
    caller; the status value plays no part. *)
Theorem getresponse_success (self : conn) (r : nat) (d : loc) (dd : pydict)
    (rv : response) (args : list value) (kwargs : pydict) (w : world) :
  _sentrysdk_recorder self = Some r ->
  _sentrysdk_data_dict self = Some d ->
  w_heap w !! d = Some dd ->
  exists w' dd',
    getresponse (Ok rv) self args kwargs w = (Ok rv, self, w')
    /\ w_log w' = w_log w ++ [EvRealGetresponse args kwargs; EvExit r None]
    /\ w_heap w' !! d = Some dd'
    /\ dict_get "httplib_response" dd' = Some (VObj (resp_obj rv))
    /\ dict_get "status_code" dd' = Some (VInt (status rv))
    /\ dict_get "reason" dd' = Some (VStr (reason rv))
    /\ (forall k, k <> "httplib_response" -> k <> "status_code" -> k <> "reason" ->
                  dict_get k dd' = dict_get k dd)
    /\ (forall l, l <> d -> w_heap w' !! l = w_heap w !! l).
Proof.
  intros Hr Hd Hdd. unfold getresponse. rewrite Hr, Hd.
  destruct (record_response_lookup d rv (w_heap w) dd Hdd) as [Hat Hframe].
  eexists _, _. split; [reflexivity|]. simpl.
  split; [now rewrite <- app_assoc|].
  split; [exact Hat|].
  split; [|split; [|split; [|split]]].
  - rewrite !dict_get_set_ne by discriminate. apply dict_get_set_eq.
  - rewrite dict_get_set_ne by discriminate. apply dict_get_set_eq.
  - apply dict_get_set_eq.
  - intros k H1 H2 H3. now rewrite !dict_get_set_ne by assumption.
  - exact Hframe.
Qed.

(** A GET of [/path] on [example.com] answered with a 404. *)
Lemma getresponse_success_example :
  let o := {| po_active := true;
              po_data := [("url", VStr "http://example.com/path"); ("method", VStr "GET")];
              po_real := Ok VNone; po_headers := []; po_headers_end := None;
              po_putheader := fun _ _ => None |} in
  let '(_, self, w) :=
    putrequest o (Conn "example.com" 80 80 None None) "GET" "/path" [] [] (World [] []) in
  let rv := Response 7 404 "Not Found" in
  exists w' dd',
    getresponse (Ok rv) self [] [] w = (Ok rv, self, w')
    /\ w_log w'
       = [EvRecordHttpRequest 0 "http://example.com/path" "GET"; EvEnter 0 0;
          EvRealPutrequest "GET" "/path" [] []; EvRealGetresponse [] []; EvExit 0 None]
    /\ w_heap w' !! 0 = Some dd'
    /\ dict_get "status_code" dd' = Some (VInt 404)
    /\ dict_get "reason" dd' = Some (VStr "Not Found").
Proof.
  cbv zeta. simpl.
  destruct (getresponse_success
              (Conn "example.com" 80 80 (Some 0) (Some 0)) 0 0
              [("url", VStr "http://example.com/path"); ("method", VStr "GET")]
              (Response 7 404 "Not Found") [] []
              (World [[("url", VStr "http://example.com/path"); ("method", VStr "GET")]]
                     [EvRecordHttpRequest 0 "http://example.com/path" "GET"; EvEnter 0 0;
                      EvRealPutrequest "GET" "/path" [] []])
              eq_refl eq_refl eq_refl)
    as (w' & dd' & Hrun & Hlog & Hat & _ & Hstatus & Hreason & _).
  exists w', dd'. repeat split; assumption.
Defined.

(** C4, as the code has it: on a handle that carries a recorder, an exception
    out of the real [getresponse] always reaches the caller unchanged and
    leaves the handle and the heap alone.  The recorder is exited with it when
    it is an [Exception] other than a [TypeError]; a [TypeError] (the code's
    test for a signature probe) and an exception that is no [Exception] pass
    without any call on the recorder. *)
Theorem getresponse_failure (self : conn) (r : nat) (e : exn)
    (args : list value) (kwargs : pydict) (w : world) :
  _sentrysdk_recorder self = Some r ->
  exists w',
    getresponse (Raise e) self args kwargs w = (Raise e, self, w')
    /\ w_heap w' = w_heap w
    /\ (is_TypeError e = false -> is_Exception e = true ->
        w_log w' = w_log w ++ [EvRealGetresponse args kwargs; EvExit r (Some e)])
    /\ (is_TypeError e = true ->
        w_log w' = w_log w ++ [EvRealGetresponse args kwargs])
    /\ (is_Exception e = false ->
        w_log w' = w_log w ++ [EvRealGetresponse args kwargs]).
Proof.
  intros Hr. unfold getresponse. rewrite Hr.
  destruct (is_TypeError e) eqn:HT; [|destruct (is_Exception e) eqn:HE];
    eexists; (split; [reflexivity|]); simpl; rewrite <- ?app_assoc;
    repeat split; intros; congruence.
Qed.

Lemma getresponse_failure_example :
  exists w',
    getresponse (Raise (Exn TypeError 2)) (Conn "example.com" 80 80 (Some 0) (Some 0))
      [] [("buffering", VInt 1)] (World [[]] [])
    = (Raise (Exn TypeError 2), Conn "example.com" 80 80 (Some 0) (Some 0), w')
    /\ w_log w' = [EvRealGetresponse [] [("buffering", VInt 1)]].
Proof.
  destruct (getresponse_failure (Conn "example.com" 80 80 (Some 0) (Some 0)) 0
              (Exn TypeError 2) [] [("buffering", VInt 1)] (World [[]] []) eq_refl)
    as (w' & Hrun & _ & _ & Hprobe & _).
  exists w'. split; [exact Hrun | exact (Hprobe eq_refl)].
Defined.

(** The claim for every failure that is not a signature probe fails: a
    [KeyboardInterrupt] while the response is awaited is no [TypeError], and
    the recorder is not exited. *)
Lemma getresponse_failure_as_stated_fails :
  ~ (forall self r e args kwargs w,
       _sentrysdk_recorder self = Some r ->
       is_TypeError e = false ->
       In (EvExit r (Some e)) (w_log (snd (getresponse (Raise e) self args kwargs w)))).
Proof.
  intros H.
  specialize (H (Conn "example.com" 80 80 (Some 0) (Some 0)) 0 (Exn BaseOnly 1) [] []
                (World [[]] [EvRecordHttpRequest 0 "http://example.com/" "GET"; EvEnter 0 0;
                             EvRealPutrequest "GET" "/" [] []])
                eq_refl eq_refl).
  vm_compute in H. intuition discriminate.
Qed.

(** ** Sequences of response-phase calls *)

Lemma exit_count_app (r : nat) (l1 l2 : list event) :
  exit_count r (l1 ++ l2) = exit_count r l1 + exit_count r l2.
Proof. unfold exit_count. now rewrite List.filter_app, length_app. Qed.

Lemma getresponse_step (real : res response) (self : conn) (r : nat)
    (args : list value) (kwargs : pydict) (w : world) :
  _sentrysdk_recorder self = Some r ->
  exists out w',
    getresponse real self args kwargs w = (out, self, w')
    /\ exit_count r (w_log w')
       = exit_count r (w_log w) + (if closes_span real then 1 else 0).
Proof.
  intros Hr. unfold getresponse. rewrite Hr.
  destruct real as [rv|e]; simpl.
  - eexists _, _. split; [reflexivity|]. simpl.
    rewrite !exit_count_app. unfold exit_count. simpl. rewrite Nat.eqb_refl. simpl. lia.
  - destruct (is_TypeError e); simpl; [|destruct (is_Exception e); simpl];
      eexists _, _; (split; [reflexivity|]); simpl;
      rewrite !exit_count_app; unfold exit_count; simpl; rewrite ?Nat.eqb_refl; simpl; lia.
Qed.

(** C5, as the code has it: [getresponse] never changes the handle, so the
    recorder stays attached after it has been exited, and every later call
    whose real primitive returns or raises an [Exception] other than a
    [TypeError] exits it again: the number of [__exit__] calls on the recorder
    grows by one for each such call of the sequence. *)
Theorem getresponse_seq_exits (reals : list (res response)) (self : conn) (r : nat)
    (w : world) :
  _sentrysdk_recorder self = Some r ->
  fst (getresponse_seq reals self w) = self
  /\ exit_count r (w_log (snd (getresponse_seq reals self w)))
     = exit_count r (w_log w) + length (List.filter closes_span reals).
Proof.
  intros Hr. revert w. induction reals as [|real reals IH]; intros w; simpl.
  - split; [reflexivity | lia].
  - destruct (getresponse_step real self r [] [] w Hr) as (out & w' & -> & Hcount).
    destruct (IH w') as [Hself Hrest]. split; [exact Hself|].
    rewrite Hrest, Hcount. destruct (closes_span real); simpl; lia.
Qed.

Lemma getresponse_seq_exits_example :
  exit_count 0
    (w_log (snd (getresponse_seq
                   [Raise (Exn TypeError 2); Ok (Response 7 200 "OK")]
                   (Conn "example.com" 80 80 (Some 0) (Some 0))
                   (World [[]] [EvRecordHttpRequest 0 "http://example.com/" "GET";
                                EvEnter 0 0; EvRealPutrequest "GET" "/" [] []]))))
  = 1.
Proof.
  exact (proj2 (getresponse_seq_exits
                  [Raise (Exn TypeError 2); Ok (Response 7 200 "OK")]
                  (Conn "example.com" 80 80 (Some 0) (Some 0)) 0
                  (World [[]] [EvRecordHttpRequest 0 "http://example.com/" "GET";
                               EvEnter 0 0; EvRealPutrequest "GET" "/" [] []])
                  eq_refl)).
Defined.

(** The claim as stated fails: after a request and its response, a second
    [getresponse] on the same handle (the real primitive then raises
    [ResponseNotReady], an [Exception]) exits the same recorder once more. *)
Lemma getresponse_closes_twice :
  ~ (forall reals self r w,
       _sentrysdk_recorder self = Some r ->
       exit_count r (w_log w) = 0 ->
       exit_count r (w_log (snd (getresponse_seq reals self w))) <= 1).
Proof.
  intros H.
  pose (request := putrequest {| po_active := true; po_data := [];
                                 po_real := Ok VNone;
                                 po_headers := []; po_headers_end := None;
                                 po_putheader := fun _ _ => None |}
                     (Conn "example.com" 80 80 None None) "GET" "/" [] []
                     (World [] [])).
  specialize (H [Ok (Response 7 200 "OK"); Raise (Exn OtherException 4)]
                (snd (fst request)) 0 (snd request) eq_refl eq_refl).
  vm_compute in H. lia.
Qed.

(** ** The process-spawn wrapper *)

Lemma set_environment_pairs_cons (k v : string) (hs : list (string * string))
    (env : pydict) :
  set_environment_pairs ((k, v) :: hs) env
  = set_environment_pairs hs (dict_set (env_key k) (VStr v) env).
Proof. reflexivity. Qed.

(** Once [env] is bound, every further header is one more item assignment
    on that same object. *)
Lemma inject_headers_bound (o : popen_oracle) (hs : list (string * string))
    (l : loc) (a : list value) (kw : pydict) (h : heap) :
  inject_headers o hs (VRef l) a kw h
  = (None, VRef l, a, kw, alter (set_environment_pairs hs) l h).
Proof.
  revert h. induction hs as [|[k v] hs IH]; intros h; simpl.
  - f_equal. symmetry. apply list_alter_id. reflexivity.
  - rewrite IH. unfold heap_setitem. f_equal.
    now rewrite list_alter_alter_eq.
Qed.

Lemma env_default_copies (o : popen_oracle) (h : heap) (x : value) (base : pydict) :
  env_base o h x = Some base ->
  env_default o x h = (Ok (VRef (length h)), h ++ [base]).
Proof.
  unfold env_base, env_default.
  destruct (if truthy h x then x else VRef (so_environ o)); try discriminate.
  now intros ->.
Qed.

Lemma alter_new_object (f : pydict -> pydict) (h : heap) (d : pydict) :
  alter f (length h) (h ++ [d]) = h ++ [f d].
Proof.
  replace (length h) with (length h + 0) at 1 by lia.
  now rewrite alter_app_r.
Qed.

(** The loop of lines 179-182 for at least one header: one copy is made, the
    [env] argument is rebound to it, and all the writes go to the copy. *)
Lemma inject_headers_first (o : popen_oracle) (hs : list (string * string))
    (a : list value) (kw : pydict) (h : heap) (base : pydict) :
  hs <> [] ->
  env_base o h (default VNone (current_argument a kw "env" 10)) = Some base ->
  exists a' kw',
    inject_headers o hs VNone a kw h
    = (None, VRef (length h), a', kw', h ++ [set_environment_pairs hs base])
    /\ match dict_get "env" kw, a !! 10 with
       | Some _, _ => a' = a /\ kw_written "env" (VRef (length h)) kw kw'
       | None, Some _ => pos_written 10 (VRef (length h)) a a' /\ kw' = kw
       | None, None => a' = a /\ kw' = kw ++ [("env", VRef (length h))]
       end.
Proof.
  intros Hne Hbase. destruct hs as [|[k v] hs]; [done|].
  destruct (init_argument_default a kw "env" 10 h (env_default o)
              (VRef (length h)) (h ++ [base]) (env_default_copies o h _ base Hbase))
    as (a' & kw' & Hinit & _ & Hslot).
  exists a', kw'. split; [|exact (Hslot eq_refl)].
  cbn [inject_headers is_none]. rewrite Hinit. cbn iota.
  rewrite inject_headers_bound. unfold heap_setitem.
  now rewrite !alter_new_object.
Qed.

(** C7: in an instrumented [Popen] call whose header iteration ends normally,
    (1) with no header the real constructor receives [a] and [kw] exactly as
    the caller gave them and no object of the heap changes; (2) with at least
    one header, one new mapping is created, a copy of the caller's [env] (of
    [os.environ] when the caller's [env] is [None], missing or empty) that
    also holds every [SUBPROCESS_*] variable; the [env] argument handed to the
    real constructor refers to that new mapping, and every mapping that
    existed before, [os.environ] and the caller's included, is unchanged. *)
Theorem popen_env_injection (o : popen_oracle) (a : list value) (kw : pydict)
    (w : world) :
  so_active o = true ->
  so_headers_end o = None ->
  let h := w_heap w in
  let enter := EvSpanEnter "subprocess" (popen_description o a kw h) in
  let set_data := EvSetData "subprocess.cwd" (popen_cwd a kw) in
  let leave := EvSpanExit (exc_info (so_old_init o)) in
  (so_headers o = [] ->
   sentry_patched_popen_init o a kw w
   = (so_old_init o,
      World h (w_log w ++ [enter; set_data; EvOldPopenInit a kw; leave])))
  /\ (so_headers o <> [] ->
      forall base,
        env_base o h (default VNone (current_argument a kw "env" 10)) = Some base ->
        exists a' kw',
          sentry_patched_popen_init o a kw w
          = (so_old_init o,
             World (h ++ [set_environment_pairs (so_headers o) base])
                   (w_log w ++ [enter; set_data; EvOldPopenInit a' kw'; leave]))
          /\ match dict_get "env" kw, a !! 10 with
             | Some _, _ => a' = a /\ kw_written "env" (VRef (length h)) kw kw'
             | None, Some _ => pos_written 10 (VRef (length h)) a a' /\ kw' = kw
             | None, None => a' = a /\ kw' = kw ++ [("env", VRef (length h))]
             end
          /\ forall l d, h !! l = Some d ->
                         (h ++ [set_environment_pairs (so_headers o) base]) !! l = Some d).
Proof.
  intros Hact Hend h enter set_data leave.
  unfold sentry_patched_popen_init. rewrite Hact. cbn [negb].
  rewrite !init_argument_read. fold h.
  fold (popen_description o a kw h). fold (popen_cwd a kw).
  split.
  - intros ->. cbn [inject_headers]. rewrite Hend.
    subst enter set_data leave. unfold emit, with_heap. simpl.
    destruct (so_old_init o); simpl; repeat (rewrite <- app_assoc; simpl); reflexivity.
  - intros Hne base Hbase.
    destruct (inject_headers_first o (so_headers o) a kw h base Hne Hbase)
      as (a' & kw' & -> & Hslot).
    exists a', kw'. rewrite Hend. split; [|split; [exact Hslot|]].
    + subst enter set_data leave. unfold emit, with_heap. simpl.
      destruct (so_old_init o); simpl; repeat (rewrite <- app_assoc; simpl); reflexivity.
    + intros l d Hl. rewrite lookup_app_l; [exact Hl|]. eapply lookup_lt_Some, Hl.
Qed.

(** [Popen(["ls", "-la"])] with one header [sentry-trace: abc]; [os.environ]
    is the object at location 0. *)
Lemma popen_env_injection_example :
  let o := {| so_active := true; so_environ := 0;
              so_headers := [("sentry-trace", "abc")]; so_headers_end := None;
              so_dict_error := fun _ => Exn TypeError 0;
              so_str := fun v => match v with VStr s => Some s | _ => None end;
              so_safe_repr := fun _ => "<repr>";
              so_old_init := Ok VNone |} in
  let environ := [("PATH", VStr "/bin")] in
  sentry_patched_popen_init o [VList [VStr "ls"; VStr "-la"]] [] (World [environ] [])
  = (Ok VNone,
     World [environ; [("PATH", VStr "/bin"); ("SUBPROCESS_SENTRY_TRACE", VStr "abc")]]
           [EvSpanEnter "subprocess" "ls -la"; EvSetData "subprocess.cwd" VNone;
            EvOldPopenInit [VList [VStr "ls"; VStr "-la"]] [("env", VRef 1)];
            EvSpanExit None]).
Proof.
  intros o environ.
  destruct (proj2 (popen_env_injection o [VList [VStr "ls"; VStr "-la"]] []
                     (World [environ] []) eq_refl eq_refl)
              ltac:(discriminate) environ eq_refl)
    as (a' & kw' & Hrun & [-> ->] & _).
  exact Hrun.
Defined.

(** ** The runtime context *)

Lemma add_python_runtime_context_returns_event (active : bool) (runtime event : loc)
    (h : heap) :
  fst (add_python_runtime_context active runtime event h) = VRef event.
Proof.
  unfold add_python_runtime_context.
  destruct active; [|reflexivity].
  destruct (h !! event) as [ev|]; [|reflexivity]. simpl.
  destruct (dict_get "contexts" ev) as [c|]; simpl.
  - destruct c; try reflexivity.
    destruct (_ !! _); [|reflexivity]. now destruct (dict_mem _ _).
  - destruct (_ !! _); [|reflexivity]. now destruct (dict_mem _ _).
Qed.

(** The heap an active call leaves, by what ["contexts"] holds in the event. *)
Lemma add_python_runtime_context_cases (runtime event : loc) (h : heap) (ev : pydict) :
  h !! event = Some ev ->
  let h' := snd (add_python_runtime_context true runtime event h) in
  (exists l d,
      dict_get "contexts" ev = Some (VRef l) /\ h !! l = Some d
      /\ h' = (if dict_mem "runtime" d then h
               else alter (dict_set "runtime" (VRef runtime)) l h) ++ [[]])
  \/ (exists c x,
         dict_get "contexts" ev = Some c
         /\ (forall l, c = VRef l -> h !! l = None)
         /\ h' = h ++ [x])
  \/ (dict_get "contexts" ev = None
      /\ h' = alter (dict_set "contexts" (VRef (length h))) event h
              ++ [[("runtime", VRef runtime)]]).
Proof.
  intros Hev h'. subst h'. unfold add_python_runtime_context. rewrite Hev. simpl.
  assert (Hlt : event < length h) by (eapply lookup_lt_Some, Hev).
  destruct (dict_get "contexts" ev) as [c|] eqn:Hc.
  - destruct (match c with VRef l => h !! l | _ => None end) as [d|] eqn:Hlive.
    + left. destruct c; try discriminate. exists l, d.
      split; [reflexivity|]. split; [exact Hlive|].
      rewrite (lookup_app_l_Some _ _ _ _ Hlive).
      destruct (dict_mem "runtime" d); [reflexivity|]. simpl.
      unfold heap_setitem. apply alter_app_l. eapply lookup_lt_Some, Hlive.
    + right. left. exists c.
      destruct c; try (eexists; split; [reflexivity|]; split; [discriminate | reflexivity]).
      apply lookup_ge_None in Hlive.
      destruct (decide (l = length h)) as [->|Hl].
      * rewrite list_lookup_middle by reflexivity. simpl.
        eexists. split; [reflexivity|]. split.
        { intros ? [= <-]. now apply lookup_ge_None. }
        unfold heap_setitem. apply alter_new_object.
      * rewrite lookup_ge_None_2 by (rewrite length_app; simpl; lia).
        eexists. split; [reflexivity|]. split; [|reflexivity].
        intros ? [= <-]. now apply lookup_ge_None.
  - right. right. split; [reflexivity|]. unfold heap_setitem.
    rewrite (alter_app_l _ _ _ _ Hlt).
    rewrite list_lookup_middle by (now rewrite length_alter). simpl.
    rewrite alter_app_r_alt by (now rewrite length_alter).
    now rewrite length_alter, Nat.sub_diag.
Qed.

Lemma dict_mem_false (k : string) (d : pydict) :
  dict_mem k d = false <-> dict_get k d = None.
Proof. unfold dict_mem. destruct (dict_get k d); split; congruence. Qed.

Lemma lookup_old_object (h : heap) (x : pydict) (l : loc) (d : pydict) :
  h !! l = Some d -> (h ++ [x]) !! l = Some d.
Proof. intros H. now apply lookup_app_l_Some. Qed.

Lemma lookup_alter_old_object (f : pydict -> pydict) (i : loc) (h : heap) (x : pydict)
    (l : loc) (d : pydict) :
  h !! l = Some d ->
  (alter f i h ++ [x]) !! l = Some (if decide (i = l) then f d else d).
Proof.
  intros H. apply lookup_app_l_Some. rewrite list_lookup_alter.
  destruct (decide (i = l)) as [->|]; [now rewrite H | exact H].
Qed.

(** C9: [add_python_runtime_context] returns the event it was given and
    (1) never removes or changes an entry of any mapping that exists, the
    event's ["contexts"] mapping included; (2) a mapping gains a ["runtime"]
    entry only when the integration is active and the mapping is the event's
    ["contexts"], which had no such entry, and the value is then the one
    [_RUNTIME_CONTEXT] object of the module; (3) an active call does add it to
    a ["contexts"] mapping that lacks it, and (4) builds a ["contexts"] mapping
    holding just that entry when the event has none; (5) the
    [_RUNTIME_CONTEXT] object itself is left as it is (unless the event names
    it as its own ["contexts"]). *)
Theorem runtime_context_added_once (active : bool) (runtime event : loc) (h : heap) :
  let h' := snd (add_python_runtime_context active runtime event h) in
  fst (add_python_runtime_context active runtime event h) = VRef event
  /\ (forall l d k v,
        h !! l = Some d -> dict_get k d = Some v ->
        exists d', h' !! l = Some d' /\ dict_get k d' = Some v)
  /\ (forall l d d' v,
        h !! l = Some d -> h' !! l = Some d' ->
        dict_get "runtime" d = None -> dict_get "runtime" d' = Some v ->
        active = true /\ v = VRef runtime
        /\ exists ev, h !! event = Some ev /\ dict_get "contexts" ev = Some (VRef l))
  /\ (active = true ->
      forall ev l d,
        h !! event = Some ev -> dict_get "contexts" ev = Some (VRef l) ->
        h !! l = Some d -> dict_get "runtime" d = None ->
        exists d', h' !! l = Some d' /\ dict_get "runtime" d' = Some (VRef runtime))
  /\ (active = true ->
      forall ev,
        h !! event = Some ev -> dict_get "contexts" ev = None ->
        h' !! length h = Some [("runtime", VRef runtime)]
        /\ exists ev', h' !! event = Some ev'
                       /\ dict_get "contexts" ev' = Some (VRef (length h)))
  /\ (forall d,
        h !! runtime = Some d -> runtime <> event ->
        (forall ev, h !! event = Some ev -> dict_get "contexts" ev <> Some (VRef runtime)) ->
        h' !! runtime = Some d).
Proof.
  intros h'. split; [apply add_python_runtime_context_returns_event|].
  destruct active.
  2:{ subst h'. simpl. refine (conj _ (conj _ (conj _ (conj _ _)))).
      - intros l d k v Hd Hk. eauto.
      - intros l d d' v Hd Hd' Hnone Hsome. congruence.
      - discriminate.
      - discriminate.
      - intros d Hd _ _. exact Hd. }
  destruct (h !! event) as [ev|] eqn:Hev.
  2:{ subst h'. unfold add_python_runtime_context. rewrite Hev. simpl.
      refine (conj _ (conj _ (conj _ (conj _ _)))).
      - intros l d k v Hd Hk. eauto.
      - intros l d d' v Hd Hd' Hnone Hsome. congruence.
      - intros _ ev l d [=].
      - intros _ ev [=].
      - intros d Hd _ _. exact Hd. }
  destruct (add_python_runtime_context_cases runtime event h ev Hev)
    as [(lc & dc & Hc & Hdc & Hh') | [(c & x & Hc & Hdead & Hh') | (Hc & Hh')]];
    fold h' in Hh'; rewrite Hh'; clear Hh' h'.
  - (* "contexts" is a mapping *)
    destruct (dict_mem "runtime" dc) eqn:Hmem.
    + assert (dict_get "runtime" dc <> None) as Hhas
        by (intros E; apply dict_mem_false in E; congruence).
      refine (conj _ (conj _ (conj _ (conj _ _)))).
      * intros l d k v Hd Hk. exists d. split; [now apply lookup_old_object | exact Hk].
      * intros l d d' v Hd Hd' Hnone Hsome.
        rewrite (lookup_old_object _ _ _ _ Hd) in Hd'. congruence.
      * intros _ ev0 l d [= <-] Hc0 Hd Hnone. congruence.
      * intros _ ev0 [= <-] Hc0. congruence.
      * intros d Hd _ _. now apply lookup_old_object.
    + apply dict_mem_false in Hmem.
      refine (conj _ (conj _ (conj _ (conj _ _)))).
      * intros l d k v Hd Hk. eexists. split; [exact (lookup_alter_old_object _ _ _ _ _ _ Hd)|].
        destruct (decide (lc = l)) as [->|]; [|exact Hk].
        rewrite dict_get_set_ne; [exact Hk|]. congruence.
      * intros l d d' v Hd Hd' Hnone Hsome.
        rewrite (lookup_alter_old_object _ _ _ _ _ _ Hd) in Hd'.
        destruct (decide (lc = l)) as [->|]; [|congruence].
        injection Hd' as <-. rewrite dict_get_set_eq in Hsome.
        split; [reflexivity|]. split; [congruence|]. eauto.
      * intros _ ev0 l d [= <-] Hc0 Hd Hnone.
        assert (l = lc) as -> by congruence.
        eexists. split; [exact (lookup_alter_old_object _ _ _ _ _ _ Hd)|].
        rewrite decide_True by reflexivity. apply dict_get_set_eq.
      * intros _ ev0 [= <-] Hc0. congruence.
      * intros d Hd Hne Hnot. rewrite (lookup_alter_old_object _ _ _ _ _ _ Hd).
        rewrite decide_False; [reflexivity|].
        intros ->. now apply (Hnot ev).
  - (* "contexts" is something else *)
    refine (conj _ (conj _ (conj _ (conj _ _)))).
    + intros l d k v Hd Hk. exists d. split; [now apply lookup_old_object | exact Hk].
    + intros l d d' v Hd Hd' Hnone Hsome.
      rewrite (lookup_old_object _ _ _ _ Hd) in Hd'. congruence.
    + intros _ ev0 l d [= <-] Hc0 Hd Hnone.
      rewrite Hc in Hc0. injection Hc0 as ->. rewrite (Hdead l eq_refl) in Hd. discriminate.
    + intros _ ev0 [= <-] Hc0. congruence.
    + intros d Hd _ _. now apply lookup_old_object.
  - (* no "contexts" *)
    refine (conj _ (conj _ (conj _ (conj _ _)))).
    + intros l d k v Hd Hk. eexists.
      split; [exact (lookup_alter_old_object _ _ _ _ _ _ Hd)|].
      destruct (decide (event = l)) as [->|]; [|exact Hk].
      rewrite dict_get_set_ne; [exact Hk|]. congruence.
    + intros l d d' v Hd Hd' Hnone Hsome.
      rewrite (lookup_alter_old_object _ _ _ _ _ _ Hd) in Hd'.
      destruct (decide (event = l)) as [->|]; [|congruence].
      injection Hd' as <-. rewrite dict_get_set_ne in Hsome by discriminate. congruence.
    + intros _ ev0 l d [= <-] Hc0. congruence.
    + intros _ ev0 [= <-] _. split.
      * rewrite list_lookup_middle by (now rewrite length_alter). reflexivity.
      * eexists. split; [exact (lookup_alter_old_object _ _ _ _ _ _ Hev)|].
        rewrite decide_True by reflexivity. apply dict_get_set_eq.
    + intros d Hd Hne _. rewrite (lookup_alter_old_object _ _ _ _ _ _ Hd).
      now rewrite decide_False by congruence.
Qed.

(** ** The environment codec *)












(** An event without ["contexts"]; the module's descriptor is the object at
    location 0, the event the one at location 1. *)
Lemma runtime_context_added_once_example :
  let h := [_RUNTIME_CONTEXT "CPython" "3.7.4" "3.7.4 (default, Jul  9 2019)";
            [("message", VStr "hello")]] in
  snd (add_python_runtime_context true 0 1 h) !! 2 = Some [("runtime", VRef 0)]
  /\ exists ev',
       snd (add_python_runtime_context true 0 1 h) !! 1 = Some ev'
       /\ dict_get "contexts" ev' = Some (VRef 2).
Proof.
  intros h.
  exact (proj1 (proj2 (proj2 (proj2 (proj2 (runtime_context_added_once true 0 1 h)))))
           eq_refl [("message", VStr "hello")] eq_refl eq_refl).
Defined.

(** * Further properties of the module *)

(** ** The span's URL *)

Lemma append_assoc (s t u : string) : (s +:+ t) +:+ u = s +:+ t +:+ u.
Proof.
  induction s as [|c s IH]; [reflexivity|].
  change (String c ((s +:+ t) +:+ u) = String c (s +:+ t +:+ u)). now rewrite IH.
Qed.

(** X1: whatever the connection and the caller's [url], the URL given to the
    recorder starts with ["http://"] or ["https://"] and ends with the
    caller's [url]. *)
Theorem real_url_is_absolute (host url : string) (port default_port : Z) :
  (PyStr.startswith (real_url host port default_port url) "http://" = true
   \/ PyStr.startswith (real_url host port default_port url) "https://" = true)
  /\ exists before, real_url host port default_port url = before +:+ url.
Proof.
  destruct (PyStr.startswith_any url ["http://"; "https://"]) eqn:Habs.
  - unfold real_url. rewrite Habs. split; [|now exists ""].
    unfold PyStr.startswith_any in Habs. simpl in Habs.
    rewrite orb_false_r in Habs. apply orb_prop in Habs. exact Habs.
  - rewrite (real_url_relative _ _ _ _ Habs). split.
    + destruct (default_port =? 443)%Z; [right | left]; simpl; apply startswith_empty.
    + exists ((if (default_port =? 443)%Z then "https" else "http") +:+ "://" +:+ host
              +:+ (if (port =? default_port)%Z then "" else ":" +:+ PyStr.str_of_int port)).
      now rewrite !append_assoc.
Qed.

(** ** The argument extractor *)

(** X2: whatever the default function does, [_init_argument] touches at most
    the one argument it was asked for: the positional list keeps its length
    and every other slot, every other keyword keeps its value, and when the
    name is among the keywords the positional list is returned as it was. *)
Theorem init_argument_frame (args : list value) (kwargs : pydict) (name : string)
    (position : nat) (cb : option callback) (h : heap) :
  let '(_, args', kwargs', _) := _init_argument args kwargs name position cb h in
  length args' = length args
  /\ (forall i, i <> position -> args' !! i = args !! i)
  /\ (forall k, k <> name -> dict_get k kwargs' = dict_get k kwargs)
  /\ (dict_mem name kwargs = true -> args' = args)
  /\ (dict_mem name kwargs = false -> args !! position <> None -> kwargs' = kwargs).
Proof.
  unfold _init_argument, dict_mem.
  destruct (dict_get name kwargs) as [rv0|] eqn:Hkw.
  - destruct cb as [f|]; [destruct (f rv0 h) as [[rv|e] h']|];
      (repeat split; try done;
       intros k Hk; destruct (is_none _); try reflexivity;
       now apply dict_get_set_ne).
  - destruct (args !! position) as [rv0|] eqn:Hpos.
    + destruct cb as [f|]; [destruct (f rv0 h) as [[rv|e] h']|];
        (repeat split; try done;
         try (destruct (is_none _); [reflexivity | apply length_insert]);
         intros i Hi; destruct (is_none _); try reflexivity;
         now apply list_lookup_insert_ne).
    + destruct cb as [f|]; [destruct (f VNone h) as [[rv|e] h']|];
        (repeat split; try done;
         intros k Hk; destruct (is_none _); try reflexivity;
         now apply dict_get_set_ne).
Qed.

(** ** The names and the writes of the injected variables *)









Lemma set_environment_pairs_app (hs1 hs2 : list (string * string)) (env : pydict) :
  set_environment_pairs (hs1 ++ hs2) env
  = set_environment_pairs hs2 (set_environment_pairs hs1 env).
Proof.
  revert env. induction hs1 as [|[k v] hs1 IH]; intros env; [reflexivity|].
  cbn [app set_environment_pairs]. apply IH.
Qed.

Lemma set_environment_pairs_other (hs : list (string * string)) (env : pydict)
    (k : string) :
  (forall kv, In kv hs -> env_key (fst kv) <> k) ->
  dict_get k (set_environment_pairs hs env) = dict_get k env.
Proof.
  revert env. induction hs as [|[k0 v0] hs IH]; intros env Hk; [reflexivity|].
  cbn [set_environment_pairs]. rewrite IH by (intros kv Hin; apply Hk; now right).
  apply dict_get_set_ne. intros ->. now apply (Hk (k0, v0)); [left|].
Qed.

Lemma dict_set_keys (k : string) (v : value) (d : pydict) :
  map fst (dict_set k v d) = map fst d ++ (if dict_mem k d then [] else [k]).
Proof.
  unfold dict_mem. induction d as [|[k' v'] d IH]; [reflexivity|].
  cbn [dict_set dict_get]. destruct (String.eqb k' k) eqn:E.
  - apply String.eqb_eq in E. subst k'. cbn [map fst app]. now rewrite app_nil_r.
  - cbn [map fst app]. now rewrite IH.
Qed.

(** X4: the writes of lines 179-182 on a mapping.  A variable that is not
    the name of any header keeps the value it had; for every header, the
    variable of its name holds the value of the last header with that
    variable name; and the variables the mapping had before stay where they
    were, new ones being added after them. *)
Theorem set_environment_pairs_lookup (hs : list (string * string)) (env : pydict) :
  (forall k,
     (forall kv, In kv hs -> env_key (fst kv) <> k) ->
     dict_get k (set_environment_pairs hs env) = dict_get k env)
  /\ (forall hs1 k v hs2,
        hs = hs1 ++ (k, v) :: hs2 ->
        (forall kv, In kv hs2 -> env_key (fst kv) <> env_key k) ->
        dict_get (env_key k) (set_environment_pairs hs env) = Some (VStr v))
  /\ exists added, map fst (set_environment_pairs hs env) = map fst env ++ added.
Proof.
  split; [intros k; apply set_environment_pairs_other|]. split.
  - intros hs1 k v hs2 -> Hlast.
    rewrite set_environment_pairs_app. cbn [set_environment_pairs].
    rewrite set_environment_pairs_other by exact Hlast.
    apply dict_get_set_eq.
  - revert env. induction hs as [|[k v] hs IH]; intros env.
    + exists []. now rewrite app_nil_r.
    + cbn [set_environment_pairs].
      destruct (IH (dict_set (env_key k) (VStr v) env)) as [added ->].
      rewrite dict_set_keys, <- app_assoc. eauto.
Qed.

(** ** What the httplib wrappers forward and return *)

Lemma filter_putheader_events (p : event -> bool) (hs : list (string * string)) :
  (forall k v, p (EvPutheader k v) = false) ->
  List.filter p (putheader_events hs) = [].
Proof.
  intros Hp. induction hs as [|[k v] hs IH]; [reflexivity|].
  cbn [putheader_events map List.filter fst snd]. rewrite Hp. exact IH.
Qed.

Lemma headers_attempted_all (putheader : string -> string -> option exn)
    (hs : list (string * string)) :
  putheader_failure putheader hs = None -> headers_attempted putheader hs = hs.
Proof.
  induction hs as [|[k v] hs IH]; [reflexivity|].
  cbn [putheader_failure headers_attempted].
  destruct (putheader k v); [discriminate|]. intros H. now rewrite IH.
Qed.

(** X5: instrumented or not, [putrequest] calls the real primitive exactly
    once, with the caller's own method, url and further arguments, and only
    adds to the log.  An exception of the real primitive is the exception the
    caller sees and the handle is left as it was; and unless putting a header
    or iterating the headers raises, the caller gets exactly the outcome of
    the real primitive. *)
Theorem putrequest_forwards_once (o : putrequest_oracle) (self : conn)
    (method url : string) (args : list value) (kwargs : pydict) (w : world) :
  let '(r, self', w') := putrequest o self method url args kwargs w in
  (exists added,
      w_log w' = w_log w ++ added
      /\ List.filter is_real_putrequest added = [EvRealPutrequest method url args kwargs])
  /\ (forall e, po_real o = Raise e -> r = Raise e /\ self' = self)
  /\ (putheader_failure (po_putheader o) (po_headers o) = None ->
      po_headers_end o = None -> r = po_real o).
Proof.
  destruct (po_active o) eqn:Hact.
  - rewrite (putrequest_active_trace o self method url args kwargs w Hact).
    unfold request_failure.
    destruct (po_real o) as [rv|e0] eqn:Hreal.
    + destruct (putheader_failure _ _) as [e|] eqn:Hput;
        [|destruct (po_headers_end o) as [e|] eqn:Hend];
        (split; [|split; [discriminate | try discriminate]]);
        try (eexists; split; [reflexivity|];
             destruct (is_Exception e);
             cbn [app List.filter is_real_putrequest];
             rewrite ?List.filter_app, filter_putheader_events by reflexivity;
             reflexivity).
      * eexists. split; [reflexivity|].
        cbn [app List.filter is_real_putrequest].
        now rewrite filter_putheader_events by reflexivity.
      * reflexivity.
    + split; [|split].
      * eexists. split; [reflexivity|].
        destruct (is_Exception e0); cbn [app List.filter is_real_putrequest];
          rewrite ?List.filter_app, filter_putheader_events by reflexivity; reflexivity.
      * intros e [= <-]. split; reflexivity.
      * reflexivity.
  - unfold putrequest. rewrite Hact. cbn [negb].
    split; [|split].
    + exists [EvRealPutrequest method url args kwargs]. split; reflexivity.
    + intros e ->. split; reflexivity.
    + reflexivity.
Qed.

(** X6: an instrumented [putrequest] in which nothing raises puts every
    propagation header, once and in the order the hub yields them, after the
    real call; it returns what the real primitive returned, attaches the new
    recorder and its mapping to the handle, and does not exit the recorder. *)
Theorem putrequest_success (o : putrequest_oracle) (self : conn)
    (method url : string) (args : list value) (kwargs : pydict) (w : world) :
  po_active o = true ->
  request_failure o = None ->
  let r := length (w_log w) in
  let d := length (w_heap w) in
  putrequest o self method url args kwargs w
  = (po_real o,
     Conn (host self) (port self) (default_port self) (Some r) (Some d),
     World (w_heap w ++ [po_data o])
           (w_log w
            ++ [EvRecordHttpRequest r
                  (real_url (host self) (port self) (default_port self) url) method;
                EvEnter r d;
                EvRealPutrequest method url args kwargs]
            ++ putheader_events (po_headers o))).
Proof.
  intros Hact Hok r d.
  rewrite (putrequest_active_trace o self method url args kwargs w Hact), Hok.
  unfold request_failure, request_headers in *.
  destruct (po_real o); [|discriminate].
  destruct (putheader_failure _ _) eqn:Hput; [discriminate|].
  now rewrite (headers_attempted_all _ _ Hput).
Qed.

Lemma putrequest_success_example :
  let o := {| po_active := true; po_data := []; po_real := Ok VNone;
              po_headers := [("sentry-trace", "abc"); ("baggage", "x=1")];
              po_headers_end := None; po_putheader := fun _ _ => None |} in
  putrequest o (Conn "example.com" 8080 80 None None) "GET" "/path" [] [] (World [] [])
  = (Ok VNone, Conn "example.com" 8080 80 (Some 0) (Some 0),
     World [[]]
           [EvRecordHttpRequest 0 "http://example.com:8080/path" "GET"; EvEnter 0 0;
            EvRealPutrequest "GET" "/path" [] [];
            EvPutheader "sentry-trace" "abc"; EvPutheader "baggage" "x=1"]).
Proof.
  intros o.
  exact (putrequest_success o (Conn "example.com" 8080 80 None None) "GET" "/path"
           [] [] (World [] []) eq_refl eq_refl).
Defined.

(** X7: [getresponse] gives the caller exactly the outcome of the real
    primitive, whatever it is, calls the real primitive exactly once with the
    caller's arguments, and never changes the handle.  On a handle without a
    recorder that one call is all it does; and when the real primitive raises,
    no object of the heap changes. *)
Theorem getresponse_transparent (real : res response) (self : conn)
    (args : list value) (kwargs : pydict) (w : world) :
  exists w',
    getresponse real self args kwargs w = (real, self, w')
    /\ (exists added,
           w_log w' = w_log w ++ added
           /\ List.filter is_real_getresponse added = [EvRealGetresponse args kwargs])
    /\ (_sentrysdk_recorder self = None -> w' = emit (EvRealGetresponse args kwargs) w)
    /\ (forall e, real = Raise e -> w_heap w' = w_heap w).
Proof.
  unfold getresponse.
  destruct (_sentrysdk_recorder self) as [r|].
  - destruct real as [rv|e].
    + eexists. split; [reflexivity|]. split; [|split; [discriminate | discriminate]].
      exists [EvRealGetresponse args kwargs; EvExit r None].
      split; [|reflexivity]. cbn. now rewrite <- app_assoc.
    + destruct (is_TypeError e); [|destruct (is_Exception e)];
        (eexists; split; [reflexivity|];
         split; [|split; [discriminate | reflexivity]]).
      * exists [EvRealGetresponse args kwargs]. split; reflexivity.
      * exists [EvRealGetresponse args kwargs; EvExit r (Some e)].
        split; [|reflexivity]. cbn. now rewrite <- app_assoc.
      * exists [EvRealGetresponse args kwargs]. split; reflexivity.
  - eexists. split; [reflexivity|]. split; [|split; [reflexivity | reflexivity]].
    exists [EvRealGetresponse args kwargs]. split; reflexivity.
Qed.

(** ** A request and its response *)

Lemma getresponse_probe (real : res response) (self : conn) (r : nat)
    (args : list value) (kwargs : pydict) (w : world) :
  _sentrysdk_recorder self = Some r ->
  closes_span real = false ->
  getresponse real self args kwargs w = (real, self, emit (EvRealGetresponse args kwargs) w).
Proof.
  intros Hr Hprobe. unfold getresponse. rewrite Hr.
  destruct real as [rv|e]; [discriminate|]. cbn [closes_span] in Hprobe.
  destruct (is_TypeError e); [reflexivity|].
  destruct (is_Exception e); [discriminate | reflexivity].
Qed.

Lemma getresponse_seq_app (reals1 reals2 : list (res response)) (self : conn)
    (w : world) :
  getresponse_seq (reals1 ++ reals2) self w
  = getresponse_seq reals2 (fst (getresponse_seq reals1 self w))
      (snd (getresponse_seq reals1 self w)).
Proof.
  revert self w. induction reals1 as [|real reals1 IH]; intros self w; [reflexivity|].
  cbn [app getresponse_seq].
  destruct (getresponse real self [] [] w) as [[out self'] w']. apply IH.
Qed.

Lemma getresponse_seq_probes (probes : list (res response)) (self : conn) (r : nat)
    (w : world) :
  _sentrysdk_recorder self = Some r ->
  Forall (fun real => closes_span real = false) probes ->
  fst (getresponse_seq probes self w) = self
  /\ w_heap (snd (getresponse_seq probes self w)) = w_heap w
  /\ exit_count r (w_log (snd (getresponse_seq probes self w))) = exit_count r (w_log w).
Proof.
  intros Hr Hprobes. revert w.
  induction Hprobes as [|real probes Hreal _ IH]; intros w; [done|].
  cbn [getresponse_seq]. rewrite (getresponse_probe real self r [] [] w Hr Hreal).
  destruct (IH (emit (EvRealGetresponse [] []) w)) as (Hself & Hheap & Hcount).
  split; [exact Hself|]. split; [exact Hheap|].
  rewrite Hcount. cbn [emit w_log]. rewrite exit_count_app. cbn. lia.
Qed.

(** X8: a request, then a response.  After an instrumented [putrequest] in
    which nothing raised, any number of [getresponse] calls that fail with a
    [TypeError] (or with something that is no [Exception]) followed by one
    that returns leave the recorder exited exactly once, with three [None]s as
    the very last call, the handle as [putrequest] left it, and the status of
    the response in the recorder's mapping. *)
Theorem request_response_lifecycle (o : putrequest_oracle) (self : conn)
    (method url : string) (args : list value) (kwargs : pydict) (w : world)
    (probes : list (res response)) (rv : response) :
  po_active o = true ->
  request_failure o = None ->
  Forall (fun real => closes_span real = false) probes ->
  let r := length (w_log w) in
  let '(_, self1, w1) := putrequest o self method url args kwargs w in
  let '(self2, w2) := getresponse_seq (probes ++ [Ok rv]) self1 w1 in
  self2 = self1
  /\ exit_count r (w_log w2) = exit_count r (w_log w) + 1
  /\ last (w_log w2) = Some (EvExit r None)
  /\ exists dd,
       w_heap w2 !! length (w_heap w) = Some dd
       /\ dict_get "status_code" dd = Some (VInt (status rv))
       /\ dict_get "reason" dd = Some (VStr (reason rv)).
Proof.
  intros Hact Hok Hprobes r. subst r.
  destruct (putrequest_success_attaches o self method url args kwargs w Hact Hok)
    as (out & self1 & w1 & -> & _ & Hr & Hd & Hdata & Hcount).
  rewrite getresponse_seq_app.
  destruct (getresponse_seq_probes probes self1 _ w1 Hr Hprobes)
    as (Hself & Hheap & Hcount').
  destruct (getresponse_seq probes self1 w1) as [self' w'] eqn:Hseq.
  cbn [fst snd] in *. subst self'.
  cbn [getresponse_seq]. unfold getresponse. rewrite Hr, Hd.
  cbn [emit with_heap w_heap w_log].
  rewrite <- Hheap in Hdata.
  destruct (record_response_lookup _ rv _ _ Hdata) as [Hat _].
  split; [reflexivity|]. split; [|split].
  - rewrite !exit_count_app, Hcount', Hcount. cbn.
    rewrite Nat.eqb_refl. cbn. lia.
  - apply last_snoc.
  - eexists. split; [exact Hat|]. split.
    + rewrite dict_get_set_ne by discriminate. apply dict_get_set_eq.
    + apply dict_get_set_eq.
Qed.

Lemma request_response_lifecycle_example :
  let o := {| po_active := true; po_data := []; po_real := Ok VNone;
              po_headers := []; po_headers_end := None;
              po_putheader := fun _ _ => None |} in
  let '(_, self1, w1) :=
    putrequest o (Conn "example.com" 80 80 None None) "GET" "/" [] [] (World [] []) in
  let '(self2, w2) :=
    getresponse_seq ([Raise (Exn TypeError 2)] ++ [Ok (Response 7 404 "Not Found")])
      self1 w1 in
  self2 = self1
  /\ exit_count 0 (w_log w2) = 0 + 1
  /\ last (w_log w2) = Some (EvExit 0 None)
  /\ exists dd,
       w_heap w2 !! 0 = Some dd
       /\ dict_get "status_code" dd = Some (VInt 404)
       /\ dict_get "reason" dd = Some (VStr "Not Found").
Proof.
  intros o.
  apply (request_response_lifecycle o (Conn "example.com" 80 80 None None)
           "GET" "/" [] [] (World [] []) [Raise (Exn TypeError 2)]
           (Response 7 404 "Not Found") eq_refl eq_refl).
  apply Forall_cons. split; [reflexivity | apply Forall_nil_2].
Defined.

(** ** The process-spawn wrapper: span, description and failures *)

Lemma popen_active_run (o : popen_oracle) (a : list value) (kw : pydict) (w : world) :
  so_active o = true ->
  sentry_patched_popen_init o a kw w
  = match inject_headers o (so_headers o) VNone a kw (w_heap w) with
    | (Some e, _, _, _, h3) => (Raise e, with_heap h3 w)
    | (None, _, a3, kw3, h3) =>
        match so_headers_end o with
        | Some e => (Raise e, with_heap h3 w)
        | None =>
            (so_old_init o,
             World h3
                   (w_log w
                    ++ [EvSpanEnter "subprocess" (popen_description o a kw (w_heap w));
                        EvSetData "subprocess.cwd" (popen_cwd a kw);
                        EvOldPopenInit a3 kw3;
                        EvSpanExit (exc_info (so_old_init o))]))
        end
    end.
Proof.
  intros Hact. unfold sentry_patched_popen_init. rewrite Hact. cbn [negb].
  rewrite !init_argument_read.
  fold (popen_description o a kw (w_heap w)). fold (popen_cwd a kw).
  destruct (inject_headers _ _ _ _ _ _) as [[[[[e|] env] a3] kw3] h3]; [reflexivity|].
  destruct (so_headers_end o); [reflexivity|].
  unfold emit, with_heap. cbn [w_heap w_log].
  destruct (so_old_init o); cbn [exc_info];
    repeat (rewrite <- app_assoc; cbn [app]); reflexivity.
Qed.


(** X10: the description of the span.  When the [args] argument is missing
    or false ([None], an empty list) the description is the empty string.  For
    a list or tuple of fewer than 100 elements whose elements all have a
    [str], it is those strings joined by single spaces; when [str] fails on
    one element, or when there are 100 elements or more, it is [safe_repr] of
    the whole value. *)
Theorem popen_description_cases (o : popen_oracle) :
  (forall a kw h,
     truthy h (default VNone (current_argument a kw "args" 0)) = false ->
     popen_description o a kw h = "")
  /\ (forall vs strs,
        length vs < 100 -> mapM (so_str o) vs = Some strs ->
        describe o (VList vs) = PyStr.join " " strs
        /\ describe o (VTuple vs) = PyStr.join " " strs)
  /\ (forall vs,
        Exists (fun v => so_str o v = None) vs ->
        describe o (VList vs) = so_safe_repr o (VList vs)
        /\ describe o (VTuple vs) = so_safe_repr o (VTuple vs))
  /\ (forall vs,
        100 <= length vs ->
        describe o (VList vs) = so_safe_repr o (VList vs)
        /\ describe o (VTuple vs) = so_safe_repr o (VTuple vs)).
Proof.
  split; [|split; [|split]].
  - intros a kw h Hfalse. unfold popen_description. now rewrite Hfalse.
  - intros vs strs Hlen Hstr. unfold describe.
    apply Nat.ltb_lt in Hlen. rewrite Hlen, Hstr. now split.
  - intros vs Hfail. apply mapM_None in Hfail. unfold describe.
    rewrite Hfail. destruct (_ <? _)%nat; now split.
  - intros vs Hlen. unfold describe.
    apply Nat.ltb_ge in Hlen. rewrite Hlen. now split.
Qed.




(** X12: an empty mapping given as [env] counts as no [env]: with at least
    one header the child's environment is a copy of [os.environ] with the
    injected variables, not the empty environment the caller asked for. *)
Theorem popen_empty_env_inherits (o : popen_oracle) (a : list value) (kw : pydict)
    (w : world) (l : loc) (environ : pydict) :
  so_active o = true ->
  so_headers_end o = None ->
  so_headers o <> [] ->
  current_argument a kw "env" 10 = Some (VRef l) ->
  w_heap w !! l = Some [] ->
  w_heap w !! so_environ o = Some environ ->
  exists a' kw',
    sentry_patched_popen_init o a kw w
    = (so_old_init o,
       World (w_heap w ++ [set_environment_pairs (so_headers o) environ])
             (w_log w
              ++ [EvSpanEnter "subprocess" (popen_description o a kw (w_heap w));
                  EvSetData "subprocess.cwd" (popen_cwd a kw);
                  EvOldPopenInit a' kw';
                  EvSpanExit (exc_info (so_old_init o))]))
    /\ current_argument a' kw' "env" 10 = Some (VRef (length (w_heap w))).
Proof.
  intros Hact Hend Hne Henv Hempty Henviron.
  assert (Hbase : env_base o (w_heap w) (default VNone (current_argument a kw "env" 10))
                  = Some environ).
  { rewrite Henv. unfold env_base. simpl. rewrite Hempty. exact Henviron. }
  destruct (inject_headers_first o (so_headers o) a kw (w_heap w) environ Hne Hbase)
    as (a' & kw' & Hrun & Hslot).
  exists a', kw'. rewrite (popen_active_run o a kw w Hact), Hrun, Hend.
  split; [reflexivity|].
  unfold current_argument in *.
  destruct (dict_get "env" kw) as [v0|] eqn:Hkw.
  - destruct Hslot as [_ [Hget _]]. now rewrite Hget.
  - destruct (a !! 10) as [v0|] eqn:Hpos; [|discriminate].
    destruct Hslot as [[Hget _] ->]. now rewrite Hkw.
Qed.

Lemma popen_empty_env_inherits_example :
  let o := {| so_active := true; so_environ := 0;
              so_headers := [("sentry-trace", "abc")]; so_headers_end := None;
              so_dict_error := fun _ => Exn TypeError 0;
              so_str := fun v => match v with VStr s => Some s | _ => None end;
              so_safe_repr := fun _ => "<repr>";
              so_old_init := Ok VNone |} in
  exists a' kw',
    sentry_patched_popen_init o [VList [VStr "env"]] [("env", VRef 1)]
      (World [[("HOME", VStr "/root")]; []] [])
    = (Ok VNone,
       World [[("HOME", VStr "/root")]; [];
              [("HOME", VStr "/root"); ("SUBPROCESS_SENTRY_TRACE", VStr "abc")]]
             [EvSpanEnter "subprocess" "env"; EvSetData "subprocess.cwd" VNone;
              EvOldPopenInit a' kw'; EvSpanExit None])
    /\ current_argument a' kw' "env" 10 = Some (VRef 2).
Proof.
  intros o.
  exact (popen_empty_env_inherits o [VList [VStr "env"]] [("env", VRef 1)]
           (World [[("HOME", VStr "/root")]; []] []) 1 [("HOME", VStr "/root")]
           eq_refl eq_refl ltac:(discriminate) eq_refl eq_refl eq_refl).
Defined.

(** ** The header loop of [putrequest] *)

(** X13: the loop that puts the propagation headers goes through them in
    order and stops at the first [putheader] that raises: the headers before
    it were put without failure, it is the last one attempted, the ones after
    it are never put; without a failure all of them are put.  The heap is not
    touched. *)
Theorem put_headers_stops_at_first_failure (putheader : string -> string -> option exn)
    (hs : list (string * string)) (w : world) :
  let '(failure, w') := put_headers putheader hs w in
  w_heap w' = w_heap w
  /\ exists attempted rest,
       hs = attempted ++ rest
       /\ w_log w' = w_log w ++ putheader_events attempted
       /\ match failure with
          | None =>
              rest = []
              /\ Forall (fun kv => putheader (fst kv) (snd kv) = None) attempted
          | Some e =>
              exists before kv,
                attempted = before ++ [kv]
                /\ putheader (fst kv) (snd kv) = Some e
                /\ Forall (fun kv => putheader (fst kv) (snd kv) = None) before
          end.
Proof.
  revert w. induction hs as [|[k v] hs IH]; intros w.
  - cbn. split; [reflexivity|]. exists [], []. cbn. rewrite app_nil_r. auto.
  - cbn [put_headers]. destruct (putheader k v) as [e|] eqn:Hput.
    + split; [reflexivity|]. exists [(k, v)], hs. split; [reflexivity|].
      split; [reflexivity|]. exists [], (k, v). auto.
    + specialize (IH (emit (EvPutheader k v) w)).
      destruct (put_headers putheader hs (emit (EvPutheader k v) w)) as [failure w'].
      destruct IH as (Hheap & attempted & rest & -> & Hlog & Hfail).
      split; [exact Hheap|]. exists ((k, v) :: attempted), rest.
      split; [reflexivity|]. split.
      * rewrite Hlog. cbn. now rewrite <- app_assoc.
      * destruct failure as [e|].
        -- destruct Hfail as (before & kv & -> & Hkv & Hbefore).
           exists ((k, v) :: before), kv. split; [reflexivity|]. split; [exact Hkv|].
           apply Forall_cons. split; [exact Hput | exact Hbefore].
        -- destruct Hfail as [-> Hall]. split; [reflexivity|].
           apply Forall_cons. split; [exact Hput | exact Hall].
Qed.

(** ** The runtime context, called again *)

Lemma add_python_runtime_context_present (runtime event : loc) (h : heap)
    (ev : pydict) (l : loc) (d : pydict) :
  h !! event = Some ev ->
  dict_get "contexts" ev = Some (VRef l) ->
  h !! l = Some d ->
  dict_mem "runtime" d = true ->
  snd (add_python_runtime_context true runtime event h) = h ++ [[]].
Proof.
  intros Hev Hc Hd Hmem. unfold add_python_runtime_context.
  rewrite Hev. cbn [alloc]. rewrite Hc.
  rewrite (lookup_old_object _ _ _ _ Hd), Hmem. reflexivity.
Qed.

Lemma add_python_runtime_context_not_a_dict (runtime event : loc) (h : heap)
    (ev : pydict) (c : value) :
  h !! event = Some ev ->
  dict_get "contexts" ev = Some c ->
  (forall l, c <> VRef l) ->
  snd (add_python_runtime_context true runtime event h) = h ++ [[]].
Proof.
  intros Hev Hc Hnot. unfold add_python_runtime_context.
  rewrite Hev. cbn [alloc]. rewrite Hc.
  destruct c; try reflexivity. now destruct (Hnot l).
Qed.

(** X14: the event processor run a second time on the same event adds
    nothing: after an active call on an event (whose ["contexts"], if it is a
    reference, refers to an object of the heap), a further active call leaves
    every object as the first call left it; the only thing new is the empty
    dictionary built for [setdefault] and dropped. *)
Theorem runtime_context_second_call (runtime event : loc) (h : heap) (ev : pydict) :
  h !! event = Some ev ->
  (forall l, dict_get "contexts" ev = Some (VRef l) -> h !! l <> None) ->
  let h1 := snd (add_python_runtime_context true runtime event h) in
  snd (add_python_runtime_context true runtime event h1) = h1 ++ [[]].
Proof.
  intros Hev Hlive h1.
  destruct (add_python_runtime_context_cases runtime event h ev Hev)
    as [(lc & dc & Hc & Hdc & Hh1) | [(c & x & Hc & Hdead & _) | (Hc & Hh1)]].
  - (* "contexts" was a mapping *)
    fold h1 in Hh1. destruct (dict_mem "runtime" dc) eqn:Hmem.
    + apply (add_python_runtime_context_present runtime event h1 ev lc dc);
        try assumption; rewrite Hh1; now apply lookup_old_object.
    + apply (add_python_runtime_context_present runtime event h1
               (if decide (lc = event)
                then dict_set "runtime" (VRef runtime) ev else ev)
               lc (dict_set "runtime" (VRef runtime) dc)).
      * rewrite Hh1. now apply lookup_alter_old_object.
      * destruct (decide (lc = event)); [|exact Hc].
        rewrite dict_get_set_ne by discriminate. exact Hc.
      * rewrite Hh1, (lookup_alter_old_object _ _ _ _ _ _ Hdc).
        now rewrite decide_True by reflexivity.
      * unfold dict_mem. now rewrite dict_get_set_eq.
  - (* "contexts" was no dictionary *)
    assert (Hnot : forall l, c <> VRef l).
    { intros l ->. exact (Hlive l Hc (Hdead l eq_refl)). }
    assert (Hh1 : h1 = h ++ [[]])
      by exact (add_python_runtime_context_not_a_dict runtime event h ev c Hev Hc Hnot).
    apply (add_python_runtime_context_not_a_dict runtime event h1 ev c);
      try assumption. rewrite Hh1. now apply lookup_old_object.
  - (* there was no "contexts" *)
    fold h1 in Hh1.
    apply (add_python_runtime_context_present runtime event h1
             (dict_set "contexts" (VRef (length h)) ev)
             (length h) [("runtime", VRef runtime)]).
    + rewrite Hh1, (lookup_alter_old_object _ _ _ _ _ _ Hev).
      now rewrite decide_True by reflexivity.
    + apply dict_get_set_eq.
    + rewrite Hh1. apply list_lookup_middle. now rewrite length_alter.
    + reflexivity.
Qed.

Lemma runtime_context_second_call_example :
  let h := [_RUNTIME_CONTEXT "CPython" "3.7.4" "3.7.4 (default, Jul  9 2019)";
            [("message", VStr "hello")]] in
  let h1 := snd (add_python_runtime_context true 0 1 h) in
  h1 = [_RUNTIME_CONTEXT "CPython" "3.7.4" "3.7.4 (default, Jul  9 2019)";
        [("message", VStr "hello"); ("contexts", VRef 2)];
        [("runtime", VRef 0)]]
  /\ snd (add_python_runtime_context true 0 1 h1) = h1 ++ [[]].
Proof.
  intros h h1. split; [reflexivity|].
  apply (runtime_context_second_call 0 1 h [("message", VStr "hello")] eq_refl).
  intros l [=].
Defined.
